(** * ProductTrack Pro: column inference, tags, filtering and status toggle

    A shallow embedding of the logic of [components/DataGrid.tsx],
    [components/StatusToggle.tsx], [types.ts] and of [handleUpdateStatus]
    in [App.tsx], with the properties of the specification settled on it.

    Conventions of the model.
    - A JavaScript string is a [string] of ASCII characters; [toLowerCase]
      maps 'A'..'Z' to 'a'..'z', [trim] strips the characters 9..13 and 32,
      [\d] is '0'..'9', and [length] counts characters.
    - A JavaScript number is an element of an abstract type [num] with an
      abstract printing function [numToString] (what [String(n)] returns);
      nothing in the code under study computes with a cell's number.
    - A row object is the record [ProductRow] of [types.ts]: the two reserved
      members and the remaining own properties in enumeration order;
      [row[k]] reads own properties only.
    - An operation that would throw ([undefined.header], [undefined[k]])
      returns [None].
    - [Array.prototype.sort] is stable (ECMAScript 2019), so with a comparator
      that is a total preorder its result is the one of any stable sort; it is
      modelled by a stable insertion sort. *)

From Stdlib Require Import String Ascii List ZArith Lia Bool Arith Permutation Sorted
  DecimalN DecimalNat
  DecimalString.
Import ListNotations.

Local Open Scope string_scope.
Local Open Scope Z_scope.

(* ------------------------------------------------------------------ *)
(** ** JavaScript strings *)

Module JsString.

Definition lowerChar (c : ascii) : ascii :=
  let n := nat_of_ascii c in
  if (65 <=? n)%nat && (n <=? 90)%nat then ascii_of_nat (n + 32) else c.

Fixpoint toLowerCase (s : string) : string :=
  match s with
  | EmptyString => EmptyString
  | String c s' => String (lowerChar c) (toLowerCase s')
  end.

(** [startsWith s p]: [p] is a prefix of [s]. *)
Fixpoint startsWith (s p : string) {struct p} : bool :=
  match p, s with
  | EmptyString, _ => true
  | String _ _, EmptyString => false
  | String b p', String a s' => Ascii.eqb a b && startsWith s' p'
  end.

(** [includes s t] is [s.includes(t)]: [t] occurs in [s] as a substring. *)
Fixpoint includes (s t : string) : bool :=
  startsWith s t ||
  match s with
  | EmptyString => false
  | String _ s' => includes s' t
  end.

Definition isWhiteSpace (c : ascii) : bool :=
  let n := nat_of_ascii c in
  ((9 <=? n)%nat && (n <=? 13)%nat) || (n =? 32)%nat.

Fixpoint trimStart (s : string) : string :=
  match s with
  | EmptyString => EmptyString
  | String c s' => if isWhiteSpace c then trimStart s' else s
  end.

Fixpoint trimEnd (s : string) : string :=
  match s with
  | EmptyString => EmptyString
  | String c s' =>
      match trimEnd s' with
      | EmptyString => if isWhiteSpace c then EmptyString else String c EmptyString
      | t => String c t
      end
  end.

Definition trim (s : string) : string := trimEnd (trimStart s).

Definition isDigit (c : ascii) : bool :=
  let n := nat_of_ascii c in (48 <=? n)%nat && (n <=? 57)%nat.

Fixpoint allDigits (s : string) : bool :=
  match s with
  | EmptyString => true
  | String c s' => isDigit c && allDigits s'
  end.

(** [/^\d+$/.test(s)]: one or more characters, all of them digits. *)
Definition matchesDigits (s : string) : bool :=
  match s with
  | EmptyString => false
  | String _ _ => allDigits s
  end.

(** A string is truthy when it is not empty. *)
Definition truthy (s : string) : bool :=
  match s with EmptyString => false | String _ _ => true end.

End JsString.
Import JsString.

(* ------------------------------------------------------------------ *)
(** ** types.ts *)

Inductive ProcessingStatus : Type :=
| INCOMPLETE
| COMPLETED.

(** The string an enum member is at run time. *)
Definition statusText (s : ProcessingStatus) : string :=
  match s with
  | INCOMPLETE => "Incomplete"
  | COMPLETED => "Completed"
  end.

Definition status_eqb (a b : ProcessingStatus) : bool :=
  match a, b with
  | INCOMPLETE, INCOMPLETE | COMPLETED, COMPLETED => true
  | _, _ => false
  end.

(** A cell of the sheet ([any] in the source). *)
Inductive Value (num : Type) : Type :=
| VUndefined
| VNull
| VBool (b : bool)
| VNum (n : num)
| VStr (s : string).

Arguments VUndefined {num}.
Arguments VNull {num}.
Arguments VBool {num} b.
Arguments VNum {num} n.
Arguments VStr {num} s.

(** [interface ProductRow { id; [key: string]: any; processingStatus }]. *)
Record ProductRow (num : Type) : Type := mkRow {
  id : string;
  processingStatus : ProcessingStatus;
  fields : list (string * Value num)
}.

Arguments mkRow {num} id processingStatus fields.
Arguments id {num} p.
Arguments processingStatus {num} p.
Arguments fields {num} p.

(** [interface FileSession]. *)
Record FileSession (num : Type) : Type := mkFile {
  fileId : string;
  name : string;
  createdAt : Z;
  data : list (ProductRow num)
}.

Arguments mkFile {num} fileId name createdAt data.
Arguments fileId {num} f.
Arguments name {num} f.
Arguments createdAt {num} f.
Arguments data {num} f.

(* ------------------------------------------------------------------ *)
(** ** Arrays, Map and the option monad for operations that may throw *)

Definition bind {A B : Type} (m : option A) (k : A -> option B) : option B :=
  match m with
  | Some a => k a
  | None => None
  end.

Notation "x <- m ;; k" := (bind m (fun x => k))
  (at level 61, m at next level, right associativity).

(** [arr.map(f)] where [f] may throw. *)
Fixpoint mapM {A B : Type} (f : A -> option B) (l : list A) : option (list B) :=
  match l with
  | [] => Some []
  | a :: l' => b <- f a ;; bs <- mapM f l' ;; Some (b :: bs)
  end.

(** Stable insertion sort for [arr.sort(cmp)]: [x] goes behind [y] only when
    [cmp x y > 0]. *)
Fixpoint insertBy {A : Type} (cmp : A -> A -> Z) (x : A) (l : list A) : list A :=
  match l with
  | [] => [x]
  | y :: l' => if 0 <? cmp x y then y :: insertBy cmp x l' else x :: y :: l'
  end.

Definition sortBy {A : Type} (cmp : A -> A -> Z) (l : list A) : list A :=
  fold_right (insertBy cmp) [] l.

(** [Map<string, number>] in insertion order. *)
Definition CountMap : Type := list (string * nat).

Fixpoint mapGet (k : string) (m : CountMap) : option nat :=
  match m with
  | [] => None
  | (k', v) :: m' => if String.eqb k' k then Some v else mapGet k m'
  end.

Fixpoint mapSet (k : string) (v : nat) (m : CountMap) : CountMap :=
  match m with
  | [] => [(k, v)]
  | (k', v') :: m' =>
      if String.eqb k' k then (k', v) :: m' else (k', v') :: mapSet k v m'
  end.

(** [x || 0] on the result of [Map.get]. *)
Definition orZero (o : option nat) : nat :=
  match o with
  | Some n => n
  | None => 0%nat
  end.

(* ------------------------------------------------------------------ *)
(** ** components/DataGrid.tsx *)

Record Counts : Type := mkCounts {
  numberCount : nat;
  shortStringCount : nat;
  longStringCount : nat;
  hasSpacesCount : nat
}.

Record Scored : Type := mkScored {
  header : string;
  score : Z
}.

Record TagCount : Type := mkTag {
  tag : string;
  count : nat
}.

Definition groupTokens : list string :=
  ["unit"; "measure"; "packaging"; "material"; "type"; "cat"; "group";
   "classification code"].

(** [/unit|measure|...|classification code/i.test(h)]. *)
Definition groupRegexTest (h : string) : bool :=
  existsb (includes (toLowerCase h)) groupTokens.

(** The rule on the header's name: [if ... else if ...] on [lowerH]. *)
Definition nameRule (lowerH : string) (score : Z) : Z :=
  if includes lowerH "classification data" then score + 100
  else if includes lowerH "description" || includes lowerH "desc" then score + 80
  else if includes lowerH "product name" || includes lowerH "item name" then score + 70
  else if String.eqb lowerH "name" then score + 60
  else if includes lowerH "title" then score + 50
  else score.

(** The two penalty statements on [lowerH]. *)
Definition penaltyRule (lowerH : string) (score : Z) : Z :=
  let score :=
    if includes lowerH "id" || includes lowerH "code" || includes lowerH "sku"
       || includes lowerH "number" || includes lowerH "no."
    then score - 50 else score in
  let score :=
    if includes lowerH "price" || includes lowerH "cost" || includes lowerH "qty"
       || includes lowerH "quantity"
    then score - 100 else score in
  score.

(** [numberCount > sampleSize * 0.6].  [sampleSize] is at most 5 and the
    doubles 0.6, 1.2, 1.7999999999999998, 2.4 and 3 that the product takes
    separate the integers as the exact comparison [5 n > 3 s] does. *)
Definition mostlyNumbers (numberCount sampleSize : nat) : bool :=
  (3 * sampleSize <? 5 * numberCount)%nat.

(** The three statements after the sampling loop. *)
Definition shapeRule (c : Counts) (sampleSize : nat) (score : Z) : Z :=
  let score := if mostlyNumbers (numberCount c) sampleSize then score - 200 else score in
  let score := if (0 <? hasSpacesCount c)%nat then score + 50 else score in
  let score := if (0 <? longStringCount c)%nat then score + 30 else score in
  score.

Section DataGrid.

Variable num : Type.
Variable numToString : num -> string.

Local Abbreviation Row := (ProductRow num).
Local Abbreviation Val := (Value num).

(** [String(val)]. *)
Definition toStr (val : Val) : string :=
  match val with
  | VUndefined => "undefined"
  | VNull => "null"
  | VBool true => "true"
  | VBool false => "false"
  | VNum n => numToString n
  | VStr s => s
  end.

Fixpoint lookup (k : string) (l : list (string * Val)) : Val :=
  match l with
  | [] => VUndefined
  | (k', v) :: l' => if String.eqb k' k then v else lookup k l'
  end.

(** [row[k]]. *)
Definition get (row : Row) (k : string) : Val :=
  if String.eqb k "id" then VStr (id row)
  else if String.eqb k "processingStatus" then VStr (statusText (processingStatus row))
  else lookup k (fields row).

Definition objectKeys (row : Row) : list string :=
  map fst (fields row) ++ ["id"; "processingStatus"].

Definition objectValues (row : Row) : list Val :=
  map snd (fields row) ++ [VStr (id row); VStr (statusText (processingStatus row))].

(** [Object.keys(data[0]).filter(k => k !== 'id' && k !== 'processingStatus')];
    the component returns before this line when [data[0]] is missing. *)
Definition headers (row0 : Row) : list string :=
  filter (fun k => negb (String.eqb k "id") && negb (String.eqb k "processingStatus"))
         (objectKeys row0).

(** The body of the sampling loop for one value. *)
Definition sampleStep (val : Val) (c : Counts) : Counts :=
  match val with
  | VNum _ =>
      mkCounts (S (numberCount c)) (shortStringCount c) (longStringCount c) (hasSpacesCount c)
  | VStr s =>
      if matchesDigits (trim s) then
        mkCounts (S (numberCount c)) (shortStringCount c) (longStringCount c) (hasSpacesCount c)
      else
        let short := if (String.length s <? 3)%nat then S (shortStringCount c) else shortStringCount c in
        let long := if (5 <? String.length s)%nat then S (longStringCount c) else longStringCount c in
        let spaces := if includes s " " then S (hasSpacesCount c) else hasSpacesCount c in
        mkCounts (numberCount c) short long spaces
  | _ => c
  end.

(** [for (let i = ...; i < sampleSize; i++)] with [todo = sampleSize - i];
    [data[i][header]] throws when [data[i]] is undefined. *)
Fixpoint sampleLoop (rows : list Row) (h : string) (i todo : nat) (c : Counts)
  : option Counts :=
  match todo with
  | O => Some c
  | S todo' =>
      row <- nth_error rows i ;;
      sampleLoop rows h (S i) todo' (sampleStep (get row h) c)
  end.

(** The callback of [headers.map]. *)
Definition scoreHeader (rows : list Row) (h : string) : option Scored :=
  let score := 0 in
  let lowerH := toLowerCase h in
  let score := nameRule lowerH score in
  let score := penaltyRule lowerH score in
  let sampleSize := Nat.min (List.length rows) 5 in
  c <- sampleLoop rows h 0 sampleSize (mkCounts 0 0 0 0) ;;
  let score := shapeRule c sampleSize score in
  Some (mkScored h score).

Definition detectedNameCol (hs : list string) (rows : list Row) : option string :=
  if (List.length hs =? 0)%nat then Some ""
  else
    scores <- mapM (scoreHeader rows) hs ;;
    let scores := sortBy (fun a b => score b - score a) scores in
    first <- nth_error scores 0 ;;
    Some (header first).

(** The effect on [classifyCol]: the value of the state after it ran. *)
Definition classifyColEffect (hs : list string) (classifyCol : string) : string :=
  if existsb (String.eqb classifyCol) hs then classifyCol
  else if (0 <? List.length hs)%nat then
    match find groupRegexTest hs with
    | Some candidate => if truthy candidate then candidate else ""
    | None => ""
    end
  else classifyCol.

(** [rawVal !== undefined && rawVal !== null ? String(rawVal).trim() : 'N/A']. *)
Definition normalizeTag (rawVal : Val) : string :=
  match rawVal with
  | VUndefined | VNull => "N/A"
  | _ => trim (toStr rawVal)
  end.

(** The callback of [data.forEach] in [tags]. *)
Definition countRow (classifyCol : string) (counts : CountMap) (row : Row) : CountMap :=
  let val := normalizeTag (get row classifyCol) in
  if truthy val then mapSet val (orZero (mapGet val counts) + 1)%nat counts
  else counts.

Definition tags (rows : list Row) (classifyCol : string) : list TagCount :=
  if negb (truthy classifyCol) then []
  else
    let counts := fold_left (countRow classifyCol) rows [] in
    map (fun e => mkTag (fst e) (snd e))
        (sortBy (fun a b => Z.of_nat (snd b) - Z.of_nat (snd a)) counts).

Definition matchesSearch (searchTerm : string) (row : Row) : bool :=
  existsb (fun val => includes (toLowerCase (toStr val)) (toLowerCase searchTerm))
          (objectValues row).

Definition matchesTag (activeTag : option string) (classifyCol : string) (row : Row) : bool :=
  match activeTag with
  | Some t =>
      if truthy t then String.eqb (normalizeTag (get row classifyCol)) t else true
  | None => true
  end.

Definition filteredData (rows : list Row) (searchTerm : string)
           (activeTag : option string) (classifyCol : string) : list Row :=
  filter (fun row => matchesSearch searchTerm row && matchesTag activeTag classifyCol row) rows.

(** ** components/StatusToggle.tsx and App.tsx *)

(** The status [onClick] passes to [onChange]. *)
Definition toggledStatus (status : ProcessingStatus) : ProcessingStatus :=
  let isCompleted := status_eqb status COMPLETED in
  if isCompleted then INCOMPLETE else COMPLETED.

(** [currentData.map(row => row.id === id ? {...row, processingStatus} : row)]. *)
Definition updateRows (rowId : string) (newStatus : ProcessingStatus) (rows : list Row)
  : list Row :=
  map (fun row =>
         if String.eqb (id row) rowId
         then mkRow (id row) newStatus (fields row)
         else row) rows.

(** [setFiles(prev => prev.map(...))] as a function of [prev]; [file.data]
    is an array by its type, so [currentData] is [file.data]. *)
Definition handleUpdateStatus (activeFileId : option string) (files : list (FileSession num))
           (rowId : string) (newStatus : ProcessingStatus) : list (FileSession num) :=
  match activeFileId with
  | None => files
  | Some active =>
      if negb (truthy active) then files
      else
        map (fun file =>
               if negb (String.eqb (fileId file) active) then file
               else mkFile (fileId file) (name file) (createdAt file)
                           (updateRows rowId newStatus (data file))) files
  end.

(** A click on the toggle rendered for the row at position [i]:
    [onUpdateStatus(row.id, newStatus)] with the status the toggle computes. *)
Definition clickToggle (i : nat) (rows : list Row) : list Row :=
  match nth_error rows i with
  | Some row => updateRows (id row) (toggledStatus (processingStatus row)) rows
  | None => rows
  end.

End DataGrid.

Arguments toStr {num} numToString val.
Arguments lookup {num} k l.
Arguments get {num} row k.
Arguments objectKeys {num} row.
Arguments objectValues {num} row.
Arguments headers {num} row0.
Arguments sampleStep {num} val c.
Arguments sampleLoop {num} rows h i todo c.
Arguments scoreHeader {num} rows h.
Arguments detectedNameCol {num} hs rows.
Arguments normalizeTag {num} numToString rawVal.
Arguments countRow {num} numToString classifyCol counts row.
Arguments tags {num} numToString rows classifyCol.
Arguments matchesSearch {num} numToString searchTerm row.
Arguments matchesTag {num} numToString activeTag classifyCol row.
Arguments filteredData {num} numToString rows searchTerm activeTag classifyCol.
Arguments updateRows {num} rowId newStatus rows.
Arguments handleUpdateStatus {num} activeFileId files rowId newStatus.
Arguments clickToggle {num} i rows.

(* ------------------------------------------------------------------ *)
(** ** Vocabulary of the specification *)

(** [t] occurs in [s]. *)
Definition Substring (t s : string) : Prop :=
  exists pre post, s = pre ++ t ++ post.

Section Vocabulary.

Variable num : Type.
Variable numToString : num -> string.

Local Abbreviation Row := (ProductRow num).
Local Abbreviation Val := (Value num).

(** The values the sampling loop reads for header [h]: rows 0 .. 4. *)
Definition sampleValues (rows : list Row) (h : string) : list Val :=
  map (fun row => get row h) (firstn 5 rows).

Definition countsOf (vals : list Val) (c : Counts) : Counts :=
  fold_left (fun c val => sampleStep val c) vals c.

(** Rule 1 and rule 2 together: the score a header has before sampling. *)
Definition headerBase (h : string) : Z :=
  penaltyRule (toLowerCase h) (nameRule (toLowerCase h) 0).

(** The score [scoreHeader] gives, as a number. *)
Definition scoreOf (rows : list Row) (h : string) : Z :=
  shapeRule (countsOf (sampleValues rows h) (mkCounts 0 0 0 0))
            (Nat.min (List.length rows) 5) (headerBase h).

(** A JS number, or a string of digits once trimmed. *)
Definition isNumeric (val : Val) : bool :=
  match val with
  | VNum _ => true
  | VStr s => matchesDigits (trim s)
  | _ => false
  end.

(** A string value, with no regard to what it holds. *)
Definition stringWith (p : string -> bool) (val : Val) : bool :=
  match val with
  | VStr s => p s
  | _ => false
  end.

(** A string value that is not numeric. *)
Definition textWith (p : string -> bool) (val : Val) : bool :=
  negb (isNumeric val) && stringWith p val.

Definition hasSpace (s : string) : bool := includes s " ".
Definition longerThan5 (s : string) : bool := (5 <? String.length s)%nat.

Definition moreThan60Percent (vals : list Val) : bool :=
  (3 * List.length vals <? 5 * List.length (filter isNumeric vals))%nat.

(** Rule 3 as the code applies it: the two bonuses look at the strings that
    are not numeric. *)
Definition shapeScore (vals : list Val) : Z :=
  (if moreThan60Percent vals then -200 else 0)
  + (if existsb (textWith hasSpace) vals then 50 else 0)
  + (if existsb (textWith longerThan5) vals then 30 else 0).

(** Rule 3 as the specification words it: the two bonuses look at every
    sampled string. *)
Definition shapeScoreAnyString (vals : list Val) : Z :=
  (if moreThan60Percent vals then -200 else 0)
  + (if existsb (stringWith hasSpace) vals then 50 else 0)
  + (if existsb (stringWith longerThan5) vals then 30 else 0).

(** The group column's value is [null] or [undefined] (or absent). *)
Definition isNullish (val : Val) : bool :=
  match val with
  | VUndefined | VNull => true
  | _ => false
  end.

(** Number of rows whose normalized group value is [t]. *)
Definition rowsWithTag (rows : list Row) (classifyCol t : string) : nat :=
  List.length
    (filter (fun row => String.eqb (normalizeTag numToString (get row classifyCol)) t) rows).

(** Rows the specification sends to the "N/A" bucket: null, undefined, or
    empty once stringified and trimmed. *)
Definition isBlank (val : Val) : bool :=
  isNullish val || negb (truthy (trim (toStr numToString val))).

(** The free-text condition of the filter contract. *)
Definition SearchHit (searchTerm : string) (row : Row) : Prop :=
  searchTerm = "" \/
  exists val, In val (objectValues row) /\
              Substring (toLowerCase searchTerm) (toLowerCase (toStr numToString val)).

(** No tag is active: the state is [null] (or the falsy empty string). *)
Definition noTagActive (activeTag : option string) : Prop :=
  activeTag = None \/ activeTag = Some "".

(** The tag condition of the filter contract. *)
Definition TagHit (activeTag : option string) (classifyCol : string) (row : Row) : Prop :=
  noTagActive activeTag \/
  activeTag = Some (normalizeTag numToString (get row classifyCol)).

End Vocabulary.

Arguments sampleValues {num} rows h.
Arguments countsOf {num} vals c.
Arguments scoreOf {num} rows h.
Arguments isNumeric {num} val.
Arguments stringWith {num} p val.
Arguments textWith {num} p val.
Arguments moreThan60Percent {num} vals.
Arguments shapeScore {num} vals.
Arguments shapeScoreAnyString {num} vals.
Arguments isNullish {num} val.
Arguments rowsWithTag {num} numToString rows classifyCol t.
Arguments isBlank {num} numToString val.
Arguments SearchHit {num} numToString searchTerm row.
Arguments TagHit {num} numToString activeTag classifyCol row.

(* ------------------------------------------------------------------ *)
(** ** Sample sheets, with integer cells printed in decimal *)

Module Samples.

Definition showZ (z : Z) : string := NilEmpty.string_of_int (Z.to_int z).

(** The example scenario of the specification. *)
Definition widget (i nm : string) (price : Z) (unit : string) (st : ProcessingStatus)
  : ProductRow Z :=
  mkRow i st [("Name", VStr nm); ("Price", VNum price); ("Unit", VStr unit)].

Definition inventory : list (ProductRow Z) :=
  [widget "1" "Widget A" 10 "box" INCOMPLETE;
   widget "2" "Widget B" 0 "box" INCOMPLETE;
   widget "3" "Gadget" 5 "case" COMPLETED].

(** Four candidate name columns holding the same text in every row. *)
Definition sameText (i txt : string) : ProductRow Z :=
  mkRow i INCOMPLETE
        [("Classification Data Code", VStr txt); ("Description", VStr txt);
         ("Product Name", VStr txt); ("Name", VStr txt)].

Definition fourNames : list (ProductRow Z) :=
  [sameText "1" "Widget A"; sameText "2" "Widget B"].

(** A SKU column that is four fifths numeric next to a column of numbers. *)
Definition skuRow (sku : string) (foo : Z) : ProductRow Z :=
  mkRow "r" INCOMPLETE [("SKU", VStr sku); ("Foo", VNum foo)].

Definition skuSheet : list (ProductRow Z) :=
  [skuRow "1001" 1; skuRow "1002" 2; skuRow "1003" 3; skuRow "1004" 4;
   skuRow "see note" 5].

(** A SKU column of digits next to a column of text. *)
Definition skuNamed : list (ProductRow Z) :=
  [mkRow "1" INCOMPLETE [("SKU", VStr "1001"); ("Label", VStr "hex bolt")];
   mkRow "2" INCOMPLETE [("SKU", VStr "1002"); ("Label", VStr "nut")]].

(** A price column of numbers next to a column of text. *)
Definition priceRow (price : Z) (label : string) : ProductRow Z :=
  mkRow "r" INCOMPLETE [("Price", VNum price); ("Label", VStr label)].

Definition priceSheet : list (ProductRow Z) :=
  [priceRow 10 "bolt"; priceRow 12 "nut"].

(** Group values that are empty, null, blank or absent. *)
Definition unitRow (i : string) (cells : list (string * Value Z)) : ProductRow Z :=
  mkRow i INCOMPLETE cells.

Definition blanks : list (ProductRow Z) :=
  [unitRow "1" [("Unit", VStr "")];
   unitRow "2" [("Unit", VNull)];
   unitRow "3" [("Unit", VStr "  ")];
   unitRow "4" [];
   unitRow "5" [("Unit", VStr "box")]].

(** One cell holding a long string of digits. *)
Definition digits : list (ProductRow Z) :=
  [mkRow "1" INCOMPLETE [("Ref", VStr "1234567")]].

End Samples.

(* ------------------------------------------------------------------ *)
(** ** The rest of DataGrid.tsx and App.tsx, and the services *)

(** Decimal numerals, for the template literals over [Date.now()] and over
    an array index. *)
Definition showN (n : N) : string := NilEmpty.string_of_uint (N.to_uint n).
Definition showNat (n : nat) : string := NilEmpty.string_of_uint (Nat.to_uint n).

(** [Record<string, boolean>], the state [expandedRows]. *)
Definition ExpandedRows : Type := list (string * bool).

(** [prev[id]]; [None] is [undefined]. *)
Fixpoint flagGet (k : string) (m : ExpandedRows) : option bool :=
  match m with
  | [] => None
  | (k', v) :: m' => if String.eqb k' k then Some v else flagGet k m'
  end.

(** [{...prev, [id]: v}]. *)
Fixpoint flagSet (k : string) (v : bool) (m : ExpandedRows) : ExpandedRows :=
  match m with
  | [] => [(k, v)]
  | (k', v') :: m' =>
      if String.eqb k' k then (k', v) :: m' else (k', v') :: flagSet k v m'
  end.

Definition truthyFlag (o : option bool) : bool :=
  match o with
  | Some b => b
  | None => false
  end.

Definition toggleExpand (rowId : string) (prev : ExpandedRows) : ExpandedRows :=
  flagSet rowId (negb (truthyFlag (flagGet rowId prev))) prev.

(** [const isExpanded = expandedRows[row.id]], as the condition it is used for. *)
Definition isExpanded (expandedRows : ExpandedRows) (rowId : string) : bool :=
  truthyFlag (flagGet rowId expandedRows).

(** [const nameColumn = userSelectedNameCol || detectedNameCol], after the
    memo of [detectedNameCol] was evaluated. *)
Definition nameColumn {num : Type} (userSelectedNameCol : string) (hs : list string)
           (rows : list (ProductRow num)) : option string :=
  detected <- detectedNameCol hs rows ;;
  Some (if truthy userSelectedNameCol then userSelectedNameCol else detected).

(** The headers of the details panel: [headers.filter(h => h !== nameColumn)]. *)
Definition detailHeaders (hs : list string) (nameCol : string) : list string :=
  filter (fun h => negb (String.eqb h nameCol)) hs.

(** The [onClick] of a tag chip: [setActiveTag(activeTag === tag ? null : tag)]. *)
Definition tagClick (activeTag : option string) (t : string) : option string :=
  match activeTag with
  | Some a => if String.eqb a t then None else Some t
  | None => Some t
  end.

Definition isReserved (k : string) : bool :=
  String.eqb k "id" || String.eqb k "processingStatus".

(** [arr.map((x, index) => f(x, index))], counting from [index]. *)
Fixpoint mapIndexed {A B : Type} (f : A -> nat -> B) (index : nat) (l : list A) : list B :=
  match l with
  | [] => []
  | a :: l' => f a index :: mapIndexed f (S index) l'
  end.

Section App.

Variable num : Type.

Local Abbreviation Row := (ProductRow num).

(** services/excel.ts, the callback of [jsonData.map]:
    [{...row, id: `row-${Date.now()}-${index}`, processingStatus: INCOMPLETE}].
    A column of the sheet named as a reserved member is overwritten, so it is
    not among the other properties of the result. *)
Definition toProductRow (now : N) (index : nat) (row : list (string * Value num)) : Row :=
  mkRow ("row-" ++ showN now ++ "-" ++ showNat index) INCOMPLETE
        (filter (fun kv => negb (isReserved (fst kv))) row).

(** [processedData], with [clock i] what [Date.now()] returns in the call for
    index [i]. *)
Definition processRows (clock : nat -> N) (jsonData : list (list (string * Value num)))
  : list Row :=
  mapIndexed (fun row index => toProductRow (clock index) index row) 0 jsonData.

(** services/ai.ts:
    [data.slice(0, 50).map(({ id, processingStatus, ...rest }) => rest)]. *)
Definition sampleData (rows : list Row) : list (list (string * Value num)) :=
  map (fun row => fields row) (firstn 50 rows).

(** App.tsx, the stats row:
    [data.filter(r => r.processingStatus === s).length]. *)
Definition countStatus (s : ProcessingStatus) (rows : list Row) : nat :=
  List.length (filter (fun r => status_eqb (processingStatus r) s) rows).

(** [files.find(f => f.id === activeFileId)]. *)
Definition activeFile (files : list (FileSession num)) (activeFileId : option string)
  : option (FileSession num) :=
  match activeFileId with
  | Some a => find (fun f => String.eqb (fileId f) a) files
  | None => None
  end.

(** [handleDeleteFile]: the files and the active id after it ran, with
    [confirmed] the answer of [window.confirm]. *)
Definition handleDeleteFile (confirmed : bool) (target : string)
           (files : list (FileSession num)) (activeFileId : option string)
  : list (FileSession num) * option string :=
  if confirmed then
    (filter (fun f => negb (String.eqb (fileId f) target)) files,
     match activeFileId with
     | Some a => if String.eqb a target then None else Some a
     | None => None
     end)
  else (files, activeFileId).

(** [handleFileSelect]: the files and the active id after it ran, with
    [parsed] the rows [parseExcelFile] resolved with ([None] when it
    rejected) and [now1], [now2] the two readings of [Date.now()]. *)
Definition handleFileSelect (parsed : option (list Row)) (fileName : string)
           (now1 now2 : N) (files : list (FileSession num)) (activeFileId : option string)
  : list (FileSession num) * option string :=
  match parsed with
  | Some rows =>
      let newSession := mkFile ("file-" ++ showN now1) fileName (Z.of_N now2) rows in
      ((files ++ [newSession])%list, Some (fileId newSession))
  | None => (files, activeFileId)
  end.

End App.

Arguments toProductRow {num} now index row.
Arguments processRows {num} clock jsonData.
Arguments sampleData {num} rows.
Arguments countStatus {num} s rows.
Arguments activeFile {num} files activeFileId.
Arguments handleDeleteFile {num} confirmed target files activeFileId.
Arguments handleFileSelect {num} parsed fileName now1 now2 files activeFileId.

(** ** components/ImageSearchModal.tsx, [handleDownload] *)

(** [s.split(sep)] for a separator of one character. *)
Fixpoint splitOn (sep : ascii -> bool) (s : string) : list string :=
  match s with
  | EmptyString => [EmptyString]
  | String c s' =>
      if sep c then EmptyString :: splitOn sep s'
      else match splitOn sep s' with
           | piece :: rest => String c piece :: rest
           | [] => [String c EmptyString]
           end
  end.

Definition isDot (c : ascii) : bool := Ascii.eqb c ".".
Definition isQueryOrHash (c : ascii) : bool := Ascii.eqb c "?" || Ascii.eqb c "#".

(** [url.split('.').pop()?.split(/[?#]/)[0] || 'jpg']. *)
Definition fileExtension (url : string) : string :=
  let ext := hd EmptyString (splitOn isQueryOrHash (last (splitOn isDot url) EmptyString)) in
  if truthy ext then ext else "jpg".

(** [[a-z0-9]] under the flag [i]. *)
Definition isAlnum (c : ascii) : bool :=
  let n := nat_of_ascii c in
  ((48 <=? n)%nat && (n <=? 57)%nat) || ((65 <=? n)%nat && (n <=? 90)%nat)
  || ((97 <=? n)%nat && (n <=? 122)%nat).

(** [productName.replace(/[^a-z0-9]/gi, '_')]. *)
Fixpoint sanitizeName (s : string) : string :=
  match s with
  | EmptyString => EmptyString
  | String c s' => String (if isAlnum c then c else "_"%char) (sanitizeName s')
  end.

(** [link.download]. *)
Definition downloadName (productName url : string) : string :=
  sanitizeName productName ++ "." ++ fileExtension url.

(** ** services/ai.ts, the clean-up in [searchProductImages] *)

(** [Some rest] when [s] is [pat] followed by [rest]. *)
Fixpoint dropPrefix (pat s : string) {struct pat} : option string :=
  match pat with
  | EmptyString => Some s
  | String b pat' =>
      match s with
      | String a s' => if Ascii.eqb a b then dropPrefix pat' s' else None
      | EmptyString => None
      end
  end.

(** [s.replace(/pat/g, '')] for a literal pattern: the matches are taken from
    left to right and do not overlap.  [fuel] bounds the characters left. *)
Fixpoint removeAllFuel (pat : string) (fuel : nat) (s : string) : string :=
  match fuel with
  | O => s
  | S fuel' =>
      match s with
      | EmptyString => EmptyString
      | String c s' =>
          match dropPrefix pat s with
          | Some rest => removeAllFuel pat fuel' rest
          | None => String c (removeAllFuel pat fuel' s')
          end
      end
  end.

Definition removeAll (pat s : string) : string :=
  removeAllFuel pat (String.length s) s.

(** [(response.text || "[]").replace(/```json/g, '').replace(/```/g, '').trim()]. *)
Definition cleanText (responseText : option string) : string :=
  let text :=
    match responseText with
    | Some t => if truthy t then t else "[]"
    | None => "[]"
    end in
  trim (removeAll "```" (removeAll "```json" text)).

(** Every character of [s] satisfies [p]. *)
Fixpoint allChars (p : ascii -> bool) (s : string) : bool :=
  match s with
  | EmptyString => true
  | String c s' => p c && allChars p s'
  end.

(** A decoded sheet, the clock of its decoding and two stored files. *)
Module Sheets.

Definition sheet : list (list (string * Value Z)) :=
  [[("id", VNum 7); ("Name", VStr "Widget A"); ("Unit", VStr "box")];
   [("Name", VStr "Gadget"); ("Unit", VStr "case")]].

Definition clock (i : nat) : N := 1700000000000 + N.of_nat i.

Definition stored : list (FileSession Z) :=
  [mkFile "file-1" "a.xlsx" 1 Samples.inventory;
   mkFile "file-2" "b.xlsx" 2 Samples.blanks].

(** A column of numbers under two penalty words and a column of text under
    the best name. *)
Definition extremes : list (ProductRow Z) :=
  [mkRow "1" INCOMPLETE
         [("Price ID", VNum 4); ("Classification Data", VStr "zinc plated hex bolt")]].

End Sheets.

(* ------------------------------------------------------------------ *)
(** ** Strings *)

Example js_string_examples :
  toLowerCase "Product TYPE No.7" = "product type no.7" /\
  trim "  hex bolt  " = "hex bolt" /\
  trim "   " = "" /\
  matchesDigits (trim " 0042 ") = true /\
  matchesDigits (trim "4 2") = false /\
  matchesDigits "" = false /\
  includes "classification data" "cat" = true /\
  includes "name" "" = true /\
  includes "" "id" = false.
Proof. repeat split. Qed.

Lemma startsWith_spec (s p : string) :
  startsWith s p = true <-> exists post, s = p ++ post.
Proof.
  revert s. induction p as [|b p IH]; intros s; simpl.
  - split; [intros _; now exists s | reflexivity].
  - destruct s as [|a s].
    + split; [discriminate | intros [post E]; discriminate].
    + rewrite andb_true_iff, Ascii.eqb_eq, IH. split.
      * intros [-> [post ->]]. now exists post.
      * intros [post E]. injection E as -> ->. split; [reflexivity | now exists post].
Qed.

Lemma includes_spec (s t : string) :
  includes s t = true <-> Substring t s.
Proof.
  unfold Substring. induction s as [|a s IH].
  - simpl. rewrite orb_false_r, startsWith_spec. split.
    + intros [post E]. now exists "", post.
    + intros [pre [post E]]. destruct pre; [now exists post | discriminate].
  - cbn [includes]. rewrite orb_true_iff, startsWith_spec, IH. split.
    + intros [[post E] | [pre [post E]]].
      * now exists "", post.
      * exists (String a pre), post. simpl. now rewrite E.
    + intros [pre [post E]]. destruct pre as [|b pre].
      * left. now exists post.
      * right. simpl in E. injection E as _ E. now exists pre, post.
Qed.

Lemma includes_empty (s : string) : includes s "" = true.
Proof. destruct s; reflexivity. Qed.

Lemma truthy_true (s : string) : truthy s = true <-> s <> "".
Proof. destruct s; simpl; split; congruence. Qed.

Lemma truthy_false (s : string) : truthy s = false <-> s = "".
Proof. destruct s; simpl; split; congruence. Qed.

(* ------------------------------------------------------------------ *)
(** ** The stable sort *)

Section Sorting.

Context {A : Type} (cmp : A -> A -> Z).

Lemma insertBy_perm (x : A) (l : list A) : Permutation (insertBy cmp x l) (x :: l).
Proof.
  induction l as [|y l IH]; simpl; [reflexivity|].
  destruct (0 <? cmp x y); [|reflexivity].
  rewrite IH. apply perm_swap.
Qed.

Lemma sortBy_perm (l : list A) : Permutation (sortBy cmp l) l.
Proof.
  induction l as [|x l IH]; simpl; [reflexivity|].
  rewrite insertBy_perm. now constructor.
Qed.

Lemma insertBy_head (x : A) (l : list A) :
  nth_error (insertBy cmp x l) 0 =
  match nth_error l 0 with
  | Some y => if 0 <? cmp x y then Some y else Some x
  | None => Some x
  end.
Proof.
  destruct l as [|y l]; simpl; [reflexivity|].
  now destruct (0 <? cmp x y).
Qed.

End Sorting.

(** With a comparator [key b - key a] the result is in descending order of
    the key, and the elements of one key keep their order. *)
Section SortingByKey.

Context {A : Type} (key : A -> Z).

Let cmp : A -> A -> Z := fun a b => key b - key a.
Let desc : A -> A -> Prop := fun a b => key b <= key a.

Lemma insertBy_sorted (x : A) (l : list A) :
  Sorted desc l -> Sorted desc (insertBy cmp x l).
Proof.
  induction l as [|y l IH]; intros Hs; simpl.
  - repeat constructor.
  - inversion Hs as [|? ? Hl Hhd]; subst. unfold cmp at 1.
    destruct (0 <? key y - key x) eqn:C.
    + apply Z.ltb_lt in C. constructor; [now apply IH|].
      destruct l as [|z l]; simpl.
      * constructor. unfold desc. lia.
      * inversion Hhd; subst. unfold cmp.
        destruct (0 <? key z - key x); constructor; unfold desc in *; lia.
    + apply Z.ltb_ge in C. constructor; [assumption|].
      constructor. unfold desc. lia.
Qed.

Lemma sortBy_sorted (l : list A) : Sorted desc (sortBy cmp l).
Proof.
  induction l as [|x l IH]; simpl; [constructor | now apply insertBy_sorted].
Qed.

Lemma insertBy_stable (k : Z) (x : A) (l : list A) :
  filter (fun a => key a =? k) (insertBy cmp x l)
  = filter (fun a => key a =? k) (x :: l).
Proof.
  induction l as [|y l IH]; [reflexivity|].
  cbn [insertBy]. unfold cmp at 1. destruct (0 <? key y - key x) eqn:C; [|reflexivity].
  apply Z.ltb_lt in C. cbn [filter] in *. rewrite IH.
  destruct (key x =? k) eqn:Ex; destruct (key y =? k) eqn:Ey; try reflexivity.
  apply Z.eqb_eq in Ex, Ey. lia.
Qed.

Lemma sortBy_stable (k : Z) (l : list A) :
  filter (fun a => key a =? k) (sortBy cmp l) = filter (fun a => key a =? k) l.
Proof.
  induction l as [|x l IH]; [reflexivity|].
  cbn [sortBy fold_right]. rewrite insertBy_stable. cbn [filter].
  fold (sortBy cmp l). now rewrite IH.
Qed.

End SortingByKey.

(** The first element of the sorted scores is the earliest of the elements
    with the greatest score. *)
Lemma sort_scores_head (sc : string -> Z) (hs : list string) :
  hs <> [] ->
  exists pre h post,
    hs = (pre ++ h :: post)%list /\
    nth_error (sortBy (fun a b => score b - score a)
                      (map (fun h => mkScored h (sc h)) hs)) 0
      = Some (mkScored h (sc h)) /\
    Forall (fun x => sc x < sc h) pre /\
    Forall (fun x => sc x <= sc h) post.
Proof.
  induction hs as [|x hs IH]; [congruence|]. intros _.
  destruct hs as [|y hs].
  - exists [], x, []. simpl. repeat split; constructor.
  - destruct IH as (pre & h & post & E & Hd & Hpre & Hpost); [discriminate|].
    cbn [map sortBy fold_right] in *. rewrite insertBy_head.
    fold (sortBy (fun a b => score b - score a)
                 (map (fun h : string => mkScored h (sc h)) hs)) in *.
    cbn [sortBy fold_right] in Hd. rewrite Hd. cbn [score].
    destruct (0 <? sc h - sc x) eqn:C.
    + apply Z.ltb_lt in C. exists (x :: pre), h, post. rewrite E.
      repeat split; auto. constructor; [lia | assumption].
    + apply Z.ltb_ge in C. exists [], x, (y :: hs).
      repeat split; [constructor|]. rewrite E.
      apply Forall_app. split.
      * eapply Forall_impl; [|exact Hpre]. simpl. intros; lia.
      * constructor; [lia|]. eapply Forall_impl; [|exact Hpost]. simpl. intros; lia.
Qed.

(* ------------------------------------------------------------------ *)
(** ** Scoring *)

Section Scoring.

Variable num : Type.

Local Abbreviation Row := (ProductRow num).
Local Abbreviation Val := (Value num).

Lemma skipn_nth_error {X : Type} (l : list X) (i : nat) (x : X) :
  nth_error l i = Some x -> skipn i l = x :: skipn (S i) l.
Proof.
  revert l. induction i as [|i IH]; intros [|y l] E; try discriminate.
  - now injection E as ->.
  - simpl in E. apply IH in E. exact E.
Qed.

(** The loop never reads past the end of the rows and folds [sampleStep]
    over the values it visits. *)
Lemma sampleLoop_fold (rows : list Row) (h : string) (todo i : nat) (c : Counts) :
  (i + todo <= List.length rows)%nat ->
  sampleLoop rows h i todo c =
  Some (countsOf (map (fun row => get row h) (firstn todo (skipn i rows))) c).
Proof.
  revert i c. induction todo as [|todo IH]; intros i c Hlen; simpl; [reflexivity|].
  destruct (nth_error rows i) as [row|] eqn:E.
  - simpl. rewrite IH by lia. now rewrite (skipn_nth_error rows i row E).
  - apply nth_error_None in E. lia.
Qed.

Lemma firstn_min_length {X : Type} (l : list X) (n : nat) :
  firstn (Nat.min (List.length l) n) l = firstn n l.
Proof.
  destruct (Nat.le_ge_cases (List.length l) n) as [H|H].
  - rewrite Nat.min_l by assumption. now rewrite firstn_all, firstn_all2.
  - now rewrite Nat.min_r.
Qed.

(** [scoreHeader] returns, and what it returns. *)
Lemma scoreHeader_total (rows : list Row) (h : string) :
  scoreHeader rows h = Some (mkScored h (scoreOf rows h)).
Proof.
  unfold scoreHeader, scoreOf, sampleValues, headerBase.
  rewrite sampleLoop_fold by (simpl; apply Nat.le_min_l).
  simpl. now rewrite firstn_min_length.
Qed.

Lemma mapM_scoreHeader (rows : list Row) (hs : list string) :
  mapM (scoreHeader rows) hs = Some (map (fun h => mkScored h (scoreOf rows h)) hs).
Proof.
  induction hs as [|h hs IH]; simpl; [reflexivity|].
  now rewrite scoreHeader_total, IH.
Qed.

(** The winner, when there is a header: the earliest of the headers with the
    greatest score. *)
Lemma detected_first_max (rows : list Row) (hs : list string) :
  hs <> [] ->
  exists pre h post,
    hs = (pre ++ h :: post)%list /\
    detectedNameCol hs rows = Some h /\
    Forall (fun x => scoreOf rows x < scoreOf rows h) pre /\
    Forall (fun x => scoreOf rows x <= scoreOf rows h) post.
Proof.
  intros Hne.
  destruct (sort_scores_head (scoreOf rows) hs Hne) as (pre & h & post & E & Hd & Hpre & Hpost).
  exists pre, h, post. repeat split; auto.
  unfold detectedNameCol. destruct hs as [|x hs]; [congruence|].
  cbn [List.length Nat.eqb]. rewrite mapM_scoreHeader. cbn [bind].
  rewrite Hd. reflexivity.
Qed.

Lemma detected_is_max (rows : list Row) (hs : list string) (h x : string) :
  detectedNameCol hs rows = Some h -> In x hs -> scoreOf rows x <= scoreOf rows h.
Proof.
  intros Hd Hin. destruct hs as [|y hs]; [contradiction|].
  destruct (detected_first_max rows (y :: hs)) as (pre & h' & post & E & Hd' & Hpre & Hpost);
    [discriminate|].
  rewrite Hd' in Hd. injection Hd as ->. rewrite E in Hin.
  rewrite Forall_forall in Hpre, Hpost.
  apply in_app_or in Hin. destruct Hin as [Hin | [-> | Hin]].
  - specialize (Hpre _ Hin). simpl in Hpre. lia.
  - lia.
  - apply Hpost. assumption.
Qed.

(** What the counters hold after the loop, in the words of rule 3. *)
Lemma countsOf_spec (vals : list Val) (c : Counts) :
  numberCount (countsOf vals c) = (numberCount c + List.length (filter isNumeric vals))%nat /\
  (0 <? hasSpacesCount (countsOf vals c))%nat
    = (0 <? hasSpacesCount c)%nat || existsb (textWith hasSpace) vals /\
  (0 <? longStringCount (countsOf vals c))%nat
    = (0 <? longStringCount c)%nat || existsb (textWith longerThan5) vals.
Proof.
  revert c. induction vals as [|v vals IH]; intros c.
  - simpl. rewrite !orb_false_r. repeat split; lia.
  - unfold countsOf in *. cbn [fold_left]. destruct (IH (sampleStep v c)) as (E1 & E2 & E3).
    rewrite E1, E2, E3. clear IH E1 E2 E3.
    unfold textWith, hasSpace, longerThan5.
    destruct v as [| |b|n|s];
      cbn [sampleStep isNumeric stringWith filter existsb negb andb orb List.length];
      [ | | | | destruct (matchesDigits (trim s)) eqn:D ];
      cbn [numberCount hasSpacesCount longStringCount negb andb orb List.length];
      (split; [lia | split]); try reflexivity.
    + destruct (includes s " "); [|reflexivity].
      cbn [orb]. destruct (hasSpacesCount c); reflexivity.
    + destruct (5 <? String.length s)%nat; [|reflexivity].
      cbn [orb]. destruct (longStringCount c); reflexivity.
Qed.

Lemma sampleValues_length (rows : list Row) (h : string) :
  List.length (sampleValues rows h) = Nat.min (List.length rows) 5.
Proof.
  unfold sampleValues. rewrite length_map, length_firstn. apply Nat.min_comm.
Qed.

(** The score is the header's base score plus the shape score of the
    sampled values. *)
Lemma scoreOf_split (rows : list Row) (h : string) :
  scoreOf rows h = headerBase h + shapeScore (sampleValues rows h).
Proof.
  unfold scoreOf, shapeRule, shapeScore, mostlyNumbers, moreThan60Percent.
  destruct (countsOf_spec (sampleValues rows h) (mkCounts 0 0 0 0)) as (E1 & E2 & E3).
  rewrite E1, E2, E3, sampleValues_length. cbn [numberCount hasSpacesCount longStringCount].
  change (0 <? 0)%nat with false. cbn [orb Nat.add].
  destruct (3 * _ <? 5 * _)%nat;
    destruct (existsb (textWith hasSpace) _);
    destruct (existsb (textWith longerThan5) _); lia.
Qed.

Lemma shapeScore_bounds (vals : list Val) :
  -200 <= shapeScore vals <= 80 /\
  (moreThan60Percent vals = true -> shapeScore vals <= -120) /\
  (moreThan60Percent vals = false -> 0 <= shapeScore vals).
Proof.
  unfold shapeScore.
  destruct (moreThan60Percent vals);
    destruct (existsb (textWith hasSpace) vals);
    destruct (existsb (textWith longerThan5) vals);
    repeat split; (lia || discriminate).
Qed.

End Scoring.

(* ------------------------------------------------------------------ *)
(** ** Name-column inference: the properties *)

Lemma sampleValues_ext {num : Type} (rows : list (ProductRow num)) (h1 h2 : string) :
  (forall row, In row (firstn 5 rows) -> get row h1 = get row h2) ->
  sampleValues rows h1 = sampleValues rows h2.
Proof. intros H. unfold sampleValues. now apply map_ext_in. Qed.

(** Base scores of the headers the specification names. *)
Example headerBase_examples :
  map headerBase ["Classification Data"; "Classification Data Code"; "Description";
                  "Product Name"; "Name"; "Title"; "Price"; "SKU"; "Unit"]
  = [100; 50; 80; 70; 60; 50; -100; -50; 0].
Proof. reflexivity. Qed.

(** C1, as the code has it.  When the four columns hold the same values in
    the sampled rows, the scores of "Description", "Product Name", "Name" and
    "Classification Data Code" are the common shape score plus 80, 70, 60 and
    50: "Description" is above "Product Name", which is above "Name", which
    is above "Classification Data Code", whose +100 is reduced by the -50 of
    the penalty word "code". *)
Theorem name_priority_order {num : Type} (rows : list (ProductRow num)) :
  (forall row, In row (firstn 5 rows) ->
     get row "Classification Data Code" = get row "Description" /\
     get row "Product Name" = get row "Description" /\
     get row "Name" = get row "Description") ->
  exists shape sD sP sN sC,
    scoreHeader rows "Description" = Some (mkScored "Description" sD) /\
    scoreHeader rows "Product Name" = Some (mkScored "Product Name" sP) /\
    scoreHeader rows "Name" = Some (mkScored "Name" sN) /\
    scoreHeader rows "Classification Data Code"
      = Some (mkScored "Classification Data Code" sC) /\
    sD = shape + 80 /\ sP = shape + 70 /\ sN = shape + 60 /\ sC = shape + 50 /\
    sC < sN /\ sN < sP /\ sP < sD.
Proof.
  intros Same.
  exists (shapeScore (sampleValues rows "Description")).
  exists (scoreOf rows "Description"), (scoreOf rows "Product Name"),
         (scoreOf rows "Name"), (scoreOf rows "Classification Data Code").
  rewrite !scoreHeader_total, !scoreOf_split.
  rewrite (sampleValues_ext rows "Classification Data Code" "Description")
    by (intros row Hr; apply (Same row Hr)).
  rewrite (sampleValues_ext rows "Product Name" "Description")
    by (intros row Hr; apply (Same row Hr)).
  rewrite (sampleValues_ext rows "Name" "Description")
    by (intros row Hr; apply (Same row Hr)).
  change (headerBase "Description") with 80.
  change (headerBase "Product Name") with 70.
  change (headerBase "Name") with 60.
  change (headerBase "Classification Data Code") with 50.
  repeat split; lia.
Qed.

Lemma name_priority_order_witness :
  (forall row, In row (firstn 5 Samples.fourNames) ->
     get row "Classification Data Code" = get row "Description" /\
     get row "Product Name" = get row "Description" /\
     get row "Name" = get row "Description") /\
  exists shape sD sP sN sC,
    scoreHeader Samples.fourNames "Description" = Some (mkScored "Description" sD) /\
    scoreHeader Samples.fourNames "Product Name" = Some (mkScored "Product Name" sP) /\
    scoreHeader Samples.fourNames "Name" = Some (mkScored "Name" sN) /\
    scoreHeader Samples.fourNames "Classification Data Code"
      = Some (mkScored "Classification Data Code" sC) /\
    sD = shape + 80 /\ sP = shape + 70 /\ sN = shape + 60 /\ sC = shape + 50 /\
    sC < sN /\ sN < sP /\ sP < sD.
Proof.
  assert (Same : forall row, In row (firstn 5 Samples.fourNames) ->
     get row "Classification Data Code" = get row "Description" /\
     get row "Product Name" = get row "Description" /\
     get row "Name" = get row "Description").
  { simpl. intros row [<- | [<- | []]]; repeat split; reflexivity. }
  split; [exact Same | exact (name_priority_order Samples.fourNames Same)].
Defined.

(** C1 as the specification states it fails: with the same text in every
    candidate column, "Classification Data Code" scores 130 and
    "Description" scores 160. *)
Lemma name_priority_counterexample :
  (forall row, In row (firstn 5 Samples.fourNames) ->
     get row "Classification Data Code" = get row "Description") /\
  ~ (forall sC sD,
       scoreHeader Samples.fourNames "Classification Data Code"
         = Some (mkScored "Classification Data Code" sC) ->
       scoreHeader Samples.fourNames "Description" = Some (mkScored "Description" sD) ->
       sD < sC).
Proof.
  split.
  - simpl. intros row [<- | [<- | []]]; reflexivity.
  - intros H. specialize (H 130 160 eq_refl eq_refl). lia.
Qed.

(** C3, as the code has it.  A header "Price" whose sampled values are more
    than 60% numeric is never chosen when another header has a non-negative
    base score.  A header "SKU" whose sampled values are more than 60%
    numeric is never chosen when another header has a non-negative base score
    and either that header's own sampled values are not more than 60%
    numeric or its base score is above 30. *)
Theorem penalty_dominance {num : Type} (rows : list (ProductRow num))
        (hs : list string) (bad alt : string) :
  In bad hs ->
  In alt hs ->
  0 <= headerBase alt ->
  moreThan60Percent (sampleValues rows bad) = true ->
  bad = "Price" \/
  (bad = "SKU" /\
   (moreThan60Percent (sampleValues rows alt) = false \/ 30 < headerBase alt)) ->
  detectedNameCol hs rows <> Some bad.
Proof.
  intros _ Halt Hbase Hnum Hcase Hd.
  pose proof (detected_is_max num rows hs bad alt Hd Halt) as Hmax.
  rewrite !scoreOf_split in Hmax.
  destruct (shapeScore_bounds num (sampleValues rows bad)) as (_ & Hb & _).
  specialize (Hb Hnum).
  destruct (shapeScore_bounds num (sampleValues rows alt)) as (Ha & _ & Ha0).
  destruct Hcase as [-> | [-> Hcase]].
  - change (headerBase "Price") with (-100) in Hmax. lia.
  - change (headerBase "SKU") with (-50) in Hmax.
    destruct Hcase as [Htext | Hhigh]; [specialize (Ha0 Htext)|]; lia.
Qed.

Lemma penalty_dominance_witness :
  (In "Price" ["Name"; "Price"; "Unit"] /\
   In "Name" ["Name"; "Price"; "Unit"] /\
   0 <= headerBase "Name" /\
   moreThan60Percent (sampleValues Samples.inventory "Price") = true) /\
  detectedNameCol ["Name"; "Price"; "Unit"] Samples.inventory <> Some "Price" /\
  (In "SKU" ["SKU"; "Label"] /\
   In "Label" ["SKU"; "Label"] /\
   0 <= headerBase "Label" /\
   moreThan60Percent (sampleValues Samples.skuNamed "SKU") = true /\
   moreThan60Percent (sampleValues Samples.skuNamed "Label") = false) /\
  detectedNameCol ["SKU"; "Label"] Samples.skuNamed <> Some "SKU".
Proof.
  split; [|split; [|split]].
  - repeat split; [simpl; auto | simpl; auto | vm_compute; discriminate].
  - apply (penalty_dominance Samples.inventory ["Name"; "Price"; "Unit"] "Price" "Name").
    + simpl; auto.
    + simpl; auto.
    + vm_compute; discriminate.
    + reflexivity.
    + left; reflexivity.
  - repeat split; [simpl; auto | simpl; auto | vm_compute; discriminate].
  - apply (penalty_dominance Samples.skuNamed ["SKU"; "Label"] "SKU" "Label").
    + simpl; auto.
    + simpl; auto.
    + vm_compute; discriminate.
    + reflexivity.
    + right. split; [reflexivity | left; reflexivity].
Defined.

(** C3 as the specification states it fails for "SKU": four of its five
    sampled values are numeric and the fifth is a text with a space and more
    than 5 characters, so it scores -50 - 200 + 50 + 30 = -170, while the
    other header, of base score 0 and holding numbers, scores -200. *)
Lemma penalty_dominance_counterexample :
  In "SKU" ["Foo"; "SKU"] /\
  moreThan60Percent (sampleValues Samples.skuSheet "SKU") = true /\
  In "Foo" ["Foo"; "SKU"] /\
  0 <= headerBase "Foo" /\
  detectedNameCol ["Foo"; "SKU"] Samples.skuSheet = Some "SKU".
Proof.
  repeat split; try (simpl; auto; fail); vm_compute; discriminate.
Qed.

(** C4, as the code has it.  The score of a header is its base score plus
    the shape score of the values of its column in the first 5 rows at most:
    -200 when more than 60% of them are numeric (a number, or a string of
    digits once trimmed), +50 once when a sampled string that is not numeric
    contains a space, +30 once when a sampled string that is not numeric is
    longer than 5 characters. *)
Theorem content_shape_score {num : Type} (rows : list (ProductRow num)) (h : string) :
  scoreHeader rows h
    = Some (mkScored h (headerBase h + shapeScore (sampleValues rows h))) /\
  sampleValues rows h = map (fun row => get row h) (firstn 5 rows) /\
  (List.length (sampleValues rows h) <= 5)%nat.
Proof.
  rewrite scoreHeader_total, scoreOf_split. repeat split.
  rewrite sampleValues_length. apply Nat.le_min_r.
Qed.

(** C4 as the specification states it fails: the one sampled value
    "1234567" is a string longer than 5 characters, it is numeric, and the
    score is -200 and not -200 + 30. *)
Lemma content_shape_counterexample :
  sampleValues Samples.digits "Ref" = [VStr "1234567"] /\
  scoreHeader Samples.digits "Ref" = Some (mkScored "Ref" (-200)) /\
  headerBase "Ref" + shapeScoreAnyString (sampleValues Samples.digits "Ref") = -170 /\
  scoreHeader Samples.digits "Ref"
    <> Some (mkScored "Ref" (headerBase "Ref"
                             + shapeScoreAnyString (sampleValues Samples.digits "Ref"))).
Proof. repeat split. vm_compute. discriminate. Qed.

(** C5.  With at least one header the inference returns a header [h] that
    has the greatest score and is the earliest header with that score: every
    header scores at most what [h] scores and no header before [h] scores
    the same. *)
Theorem tie_break_earliest {num : Type} (rows : list (ProductRow num)) (hs : list string) :
  hs <> [] ->
  exists pre h post,
    hs = (pre ++ h :: post)%list /\
    detectedNameCol hs rows = Some h /\
    (forall x, scoreHeader rows x = Some (mkScored x (scoreOf rows x))) /\
    (forall x, In x hs -> scoreOf rows x <= scoreOf rows h) /\
    (forall x, In x pre -> scoreOf rows x <> scoreOf rows h).
Proof.
  intros Hne.
  destruct (detected_first_max num rows hs Hne) as (pre & h & post & E & Hd & Hpre & Hpost).
  exists pre, h, post. repeat split; auto.
  - apply scoreHeader_total.
  - intros x Hx. eapply detected_is_max; eauto.
  - intros x Hx. rewrite Forall_forall in Hpre. specialize (Hpre x Hx). simpl in Hpre. lia.
Qed.

Lemma tie_break_earliest_witness :
  ["Unit"; "Category"] <> [] /\
  exists pre h post,
    ["Unit"; "Category"] = (pre ++ h :: post)%list /\
    detectedNameCol ["Unit"; "Category"] Samples.inventory = Some h /\
    (forall x, scoreHeader Samples.inventory x
               = Some (mkScored x (scoreOf Samples.inventory x))) /\
    (forall x, In x ["Unit"; "Category"] ->
               scoreOf Samples.inventory x <= scoreOf Samples.inventory h) /\
    (forall x, In x pre -> scoreOf Samples.inventory x <> scoreOf Samples.inventory h).
Proof.
  split; [discriminate|].
  apply (tie_break_earliest Samples.inventory ["Unit"; "Category"]). discriminate.
Defined.

(** Two headers with the same score: the earlier one is returned. *)
Example tie_break_example :
  scoreOf Samples.inventory "Unit" = scoreOf Samples.inventory "Category" /\
  detectedNameCol ["Unit"; "Category"] Samples.inventory = Some "Unit" /\
  detectedNameCol ["Category"; "Unit"] Samples.inventory = Some "Category".
Proof. repeat split. Qed.

(** C7.  The inference never throws: on an empty header list it returns the
    empty string and on any other header list, whatever the rows hold, it
    returns one of the headers. *)
Theorem inference_total {num : Type} (rows : list (ProductRow num)) :
  detectedNameCol [] rows = Some "" /\
  forall h0 hs, exists h,
    detectedNameCol (h0 :: hs) rows = Some h /\ In h (h0 :: hs).
Proof.
  split; [reflexivity|]. intros h0 hs.
  destruct (detected_first_max num rows (h0 :: hs)) as (pre & h & post & E & Hd & _);
    [discriminate|].
  exists h. split; [exact Hd|]. rewrite E. apply in_or_app. right. now left.
Qed.

(* ------------------------------------------------------------------ *)
(** ** Default group-by column *)

Lemma groupRegexTest_spec (h : string) :
  groupRegexTest h = true <->
  exists tok, In tok groupTokens /\ Substring tok (toLowerCase h).
Proof.
  unfold groupRegexTest. rewrite existsb_exists.
  split; intros [tok [Hin Hs]]; exists tok; (split; [exact Hin|]);
    now apply includes_spec.
Qed.

Lemma groupRegexTest_truthy (h : string) : groupRegexTest h = true -> truthy h = true.
Proof. destruct h; [discriminate | reflexivity]. Qed.

Lemma find_first {X : Type} (p : X -> bool) (pre post : list X) (x : X) :
  Forall (fun y => p y = false) pre -> p x = true ->
  find p (pre ++ x :: post) = Some x.
Proof.
  induction 1 as [|y pre Hy _ IH]; intros Hx; simpl.
  - now rewrite Hx.
  - rewrite Hy. now apply IH.
Qed.

Lemma find_nothing {X : Type} (p : X -> bool) (l : list X) :
  Forall (fun y => p y = false) l -> find p l = None.
Proof. induction 1 as [|y l Hy _ IH]; simpl; [reflexivity | now rewrite Hy]. Qed.

Lemma array_includes (hs : list string) (c : string) :
  existsb (String.eqb c) hs = true <-> In c hs.
Proof.
  rewrite existsb_exists. split.
  - intros [x [Hin E]]. apply String.eqb_eq in E. now subst.
  - intros Hin. exists c. split; [assumption | apply String.eqb_refl].
Qed.

(** C8, as the code has it.  A header matches when, lower-cased, it contains
    one of the eight tokens.  A group column that is among the headers is
    kept.  Otherwise, on a header list that is not empty, the first matching
    header in the original order becomes the group column, and the group
    column becomes empty when no header matches.  On an empty header list the
    effect leaves the group column as it is. *)
Theorem group_default (hs : list string) (classifyCol : string) :
  (forall h, groupRegexTest h = true <->
             exists tok, In tok groupTokens /\ Substring tok (toLowerCase h)) /\
  (In classifyCol hs -> classifyColEffect hs classifyCol = classifyCol) /\
  (~ In classifyCol hs ->
   forall pre h post,
     hs = (pre ++ h :: post)%list ->
     Forall (fun x => groupRegexTest x = false) pre ->
     groupRegexTest h = true ->
     classifyColEffect hs classifyCol = h) /\
  (~ In classifyCol hs -> hs <> [] ->
   Forall (fun x => groupRegexTest x = false) hs ->
   classifyColEffect hs classifyCol = "") /\
  (hs = [] -> classifyColEffect hs classifyCol = classifyCol).
Proof.
  split; [exact groupRegexTest_spec|]. unfold classifyColEffect.
  destruct (existsb (String.eqb classifyCol) hs) eqn:Inc.
  - apply array_includes in Inc. repeat split; intros; (reflexivity || contradiction).
  - assert (Hnot : ~ In classifyCol hs).
    { intros Hin. apply array_includes in Hin. congruence. }
    split; [contradiction|]. split; [|split].
    + intros _ pre h post -> Hpre Hh.
      rewrite (find_first _ pre post h Hpre Hh), (groupRegexTest_truthy h Hh).
      rewrite length_app. simpl.
      now replace (List.length pre + S (List.length post))%nat
        with (S (List.length pre + List.length post)) by lia.
    + intros _ Hne Hall. rewrite (find_nothing _ hs Hall).
      now destruct hs.
    + now intros ->.
Qed.

(** C8 as the specification states it fails on an empty header list: no
    header matches, the selected column "Unit" is not among the headers, and
    the group column stays "Unit". *)
Lemma group_default_counterexample :
  ~ In "Unit" [] /\
  find groupRegexTest [] = None /\
  classifyColEffect [] "Unit" = "Unit" /\
  classifyColEffect [] "Unit" <> "".
Proof. repeat split; [intros [] | discriminate]. Qed.

(** The scenario of the specification, and a selection that is kept. *)
Example group_default_examples :
  classifyColEffect ["Name"; "Price"; "Unit"] "" = "Unit" /\
  classifyColEffect ["Name"; "Price"; "Unit"] "Price" = "Price" /\
  classifyColEffect ["Name"; "Price"] "Unit" = "" /\
  classifyColEffect ["Item"; "Product TYPE"; "Unit"] "" = "Product TYPE".
Proof. repeat split. Qed.

(* ------------------------------------------------------------------ *)
(** ** The count map *)

Lemma mapGet_mapSet (k k' : string) (v : nat) (m : CountMap) :
  mapGet k' (mapSet k v m) = if String.eqb k k' then Some v else mapGet k' m.
Proof.
  induction m as [|[k0 v0] m IH]; simpl.
  - reflexivity.
  - destruct (String.eqb k0 k) eqn:E0; simpl.
    + apply String.eqb_eq in E0. subst k0.
      now destruct (String.eqb k k').
    + rewrite IH. destruct (String.eqb k0 k') eqn:E1; [|reflexivity].
      apply String.eqb_eq in E1. subst k0. now rewrite String.eqb_sym, E0.
Qed.

Lemma mapSet_keys (k k' : string) (v : nat) (m : CountMap) :
  In k' (map fst (mapSet k v m)) <-> k' = k \/ In k' (map fst m).
Proof.
  induction m as [|[k0 v0] m IH]; simpl.
  - intuition.
  - destruct (String.eqb k0 k) eqn:E0; simpl.
    + apply String.eqb_eq in E0. subst k0. intuition.
    + rewrite IH. intuition.
Qed.

Lemma mapSet_NoDup (k : string) (v : nat) (m : CountMap) :
  NoDup (map fst m) -> NoDup (map fst (mapSet k v m)).
Proof.
  induction m as [|[k0 v0] m IH]; simpl; intros Hnd.
  - constructor; [intros [] | constructor].
  - inversion Hnd as [|? ? Hnot Hrest]; subst.
    destruct (String.eqb k0 k) eqn:E0; simpl.
    + now constructor.
    + constructor; [|now apply IH].
      rewrite mapSet_keys. intros [-> | Hin]; [|contradiction].
      now rewrite String.eqb_refl in E0.
Qed.

Lemma mapGet_In (k : string) (n : nat) (m : CountMap) :
  NoDup (map fst m) -> (In (k, n) m <-> mapGet k m = Some n).
Proof.
  induction m as [|[k0 v0] m IH]; simpl; intros Hnd.
  - split; [intros [] | discriminate].
  - inversion Hnd as [|? ? Hnot Hrest]; subst.
    destruct (String.eqb k0 k) eqn:E0.
    + apply String.eqb_eq in E0. subst k0. split.
      * intros [E | Hin]; [congruence|].
        exfalso. apply Hnot. now apply (in_map fst) in Hin.
      * intros E. left. congruence.
    + rewrite <- (IH Hrest). split.
      * intros [E | Hin]; [|assumption].
        injection E as -> _. now rewrite String.eqb_refl in E0.
      * now right.
Qed.

(* ------------------------------------------------------------------ *)
(** ** Tag derivation *)

Section Tags.

Variable num : Type.
Variable numToString : num -> string.

Local Abbreviation Row := (ProductRow num).

Lemma rowsWithTag_snoc (rows : list Row) (row : Row) (col t : string) :
  rowsWithTag numToString (rows ++ [row]) col t =
  (rowsWithTag numToString rows col t
   + if String.eqb (normalizeTag numToString (get row col)) t then 1 else 0)%nat.
Proof.
  unfold rowsWithTag. rewrite filter_app, length_app. simpl.
  now destruct (String.eqb _ t).
Qed.

(** What the map holds once [forEach] has gone over the rows. *)
Lemma counts_invariant (rows : list Row) (col : string) :
  let counts := fold_left (countRow numToString col) rows [] in
  NoDup (map fst counts) /\
  forall t n, mapGet t counts = Some n <->
              (t <> "" /\ n = rowsWithTag numToString rows col t /\ (0 < n)%nat).
Proof.
  induction rows as [|row rows IH] using rev_ind; cbn zeta.
  - simpl. split; [constructor|]. intros t n. split; [discriminate|].
    unfold rowsWithTag. simpl. lia.
  - rewrite fold_left_app. cbn [fold_left]. cbn zeta in IH.
    destruct IH as [Hnd Hget].
    set (counts := fold_left (countRow numToString col) rows []) in *.
    unfold countRow.
    set (val := normalizeTag numToString (get row col)).
    destruct (truthy val) eqn:Tv.
    + split; [now apply mapSet_NoDup|]. intros t n.
      rewrite mapGet_mapSet, rowsWithTag_snoc. fold val.
      destruct (String.eqb val t) eqn:E.
      * apply String.eqb_eq in E. subst t. apply truthy_true in Tv.
        assert (Hz : orZero (mapGet val counts) = rowsWithTag numToString rows col val).
        { destruct (mapGet val counts) as [k|] eqn:G; simpl.
          - apply Hget in G. tauto.
          - destruct (rowsWithTag numToString rows col val) as [|k] eqn:R; [reflexivity|].
            assert (mapGet val counts = Some (S k)) as G'
                by (apply Hget; rewrite R; repeat split; [assumption | lia]).
            congruence. }
        rewrite Hz. split.
        -- intros E. injection E as <-. repeat split; [assumption | lia].
        -- intros (_ & -> & _). reflexivity.
      * rewrite Hget, Nat.add_0_r. reflexivity.
    + split; [assumption|]. intros t n. rewrite Hget, rowsWithTag_snoc. fold val.
      apply truthy_false in Tv. rewrite Tv.
      destruct (String.eqb "" t) eqn:E.
      * apply String.eqb_eq in E. subst t. split; intros (Hne & _); congruence.
      * now rewrite Nat.add_0_r.
Qed.

Lemma nullish_or_text (rows : list Row) (col : string) :
  rowsWithTag numToString rows col "N/A" =
  (List.length (filter (fun row => isNullish (get row col)) rows)
   + List.length
       (filter (fun row => negb (isNullish (get row col))
                           && String.eqb (trim (toStr numToString (get row col))) "N/A")
               rows))%nat.
Proof.
  unfold rowsWithTag. induction rows as [|row rows IH]; [reflexivity|].
  cbn [filter]. unfold normalizeTag at 1.
  destruct (get row col) as [| |b|n|s] eqn:G;
    cbn [isNullish negb andb]; try (simpl; rewrite IH; reflexivity);
    destruct (String.eqb _ "N/A"); simpl; rewrite IH; lia.
Qed.

End Tags.

(** Without a group column there are no tags. *)
Lemma tags_no_column {num : Type} (numToString : num -> string)
      (rows : list (ProductRow num)) :
  tags numToString rows "" = [].
Proof. reflexivity. Qed.

(** X20.  The tags come in descending order of their count. *)
Lemma tags_descending {num : Type} (numToString : num -> string)
      (rows : list (ProductRow num)) (classifyCol : string) :
  Sorted (fun a b => (count b <= count a)%nat) (tags numToString rows classifyCol).
Proof.
  unfold tags. destruct (negb (truthy classifyCol)); [constructor|].
  pose proof (sortBy_sorted (fun e : string * nat => Z.of_nat (snd e))
                (fold_left (countRow numToString classifyCol) rows [])) as Hs.
  induction Hs as [|e l Hl IH Hhd]; simpl; constructor; [assumption|].
  destruct Hhd; simpl; constructor. simpl. lia.
Qed.

(** C2, as the code has it.  With a group column selected, the tags are the
    non-empty normalized values that occur, each once, with the number of rows
    that have it.  A null, undefined or absent value is normalized to "N/A"
    and any other value to its trimmed string; the count of "N/A" is the
    number of rows with a null, undefined or absent value plus the number of
    rows whose trimmed string is "N/A".  A row whose trimmed string is empty
    is counted under no tag. *)
Theorem tag_buckets {num : Type} (numToString : num -> string)
        (rows : list (ProductRow num)) (classifyCol : string) :
  classifyCol <> "" ->
  (forall t n, In (mkTag t n) (tags numToString rows classifyCol) <->
               (t <> "" /\ n = rowsWithTag numToString rows classifyCol t /\ (0 < n)%nat)) /\
  NoDup (map tag (tags numToString rows classifyCol)) /\
  (forall row, normalizeTag numToString (get row classifyCol) =
               if isNullish (get row classifyCol) then "N/A"
               else trim (toStr numToString (get row classifyCol))) /\
  rowsWithTag numToString rows classifyCol "N/A" =
  (List.length (filter (fun row => isNullish (get row classifyCol)) rows)
   + List.length
       (filter (fun row => negb (isNullish (get row classifyCol))
                           && String.eqb (trim (toStr numToString (get row classifyCol))) "N/A")
               rows))%nat.
Proof.
  intros Hcol. apply truthy_true in Hcol.
  destruct (counts_invariant num numToString rows classifyCol) as [Hnd Hget].
  cbn zeta in Hnd, Hget. unfold tags. rewrite Hcol. cbn [negb].
  set (counts := fold_left (countRow numToString classifyCol) rows []) in *.
  set (sorted := sortBy (fun a b => Z.of_nat (snd b) - Z.of_nat (snd a)) counts).
  assert (Hperm : Permutation sorted counts) by apply sortBy_perm.
  split; [|split; [|split]].
  - intros t n. rewrite <- Hget, <- (mapGet_In t n counts Hnd). rewrite in_map_iff. split.
    + intros [[t' n'] [E Hin]]. simpl in E. injection E as -> ->.
      now apply (Permutation_in _ Hperm).
    + intros Hin. exists (t, n). split; [reflexivity|].
      now apply (Permutation_in _ (Permutation_sym Hperm)).
  - rewrite map_map. simpl.
    apply (Permutation_NoDup (Permutation_sym (Permutation_map fst Hperm))). exact Hnd.
  - intros row. now destruct (get row classifyCol).
  - apply nullish_or_text.
Qed.

Lemma tag_buckets_witness :
  "Unit" <> "" /\
  (forall t n, In (mkTag t n) (tags Samples.showZ Samples.blanks "Unit") <->
               (t <> "" /\ n = rowsWithTag Samples.showZ Samples.blanks "Unit" t /\ (0 < n)%nat)) /\
  NoDup (map tag (tags Samples.showZ Samples.blanks "Unit")).
Proof.
  split; [discriminate|].
  destruct (tag_buckets Samples.showZ Samples.blanks "Unit") as (H1 & H2 & _);
    [discriminate|].
  split; [exact H1 | exact H2].
Defined.

(** C2 as the specification states it fails: of the five rows, four have a
    null, absent or empty-once-trimmed group value, and the "N/A" tag counts
    the two that are null or absent. *)
Lemma tag_buckets_counterexample :
  List.length (filter (fun row => isBlank Samples.showZ (get row "Unit")) Samples.blanks) = 4%nat /\
  tags Samples.showZ Samples.blanks "Unit" = [mkTag "N/A" 2; mkTag "box" 1] /\
  ~ In (mkTag "N/A" 4) (tags Samples.showZ Samples.blanks "Unit").
Proof.
  repeat split. vm_compute. intros [E | [E | []]]; discriminate.
Qed.

(** The scenario of the specification, and no tags without a group column. *)
Example tags_examples :
  tags Samples.showZ Samples.inventory "Unit" = [mkTag "box" 2; mkTag "case" 1] /\
  tags Samples.showZ Samples.inventory "" = [].
Proof. repeat split. Qed.

(* ------------------------------------------------------------------ *)
(** ** Filter evaluation *)

Section Filter.

Variable num : Type.
Variable numToString : num -> string.

Local Abbreviation Row := (ProductRow num).

Lemma objectValues_reserved (row : Row) :
  In (VStr (id row)) (objectValues row) /\
  In (VStr (statusText (processingStatus row))) (objectValues row).
Proof.
  unfold objectValues. split; apply in_or_app; right; simpl; auto.
Qed.

Lemma matchesSearch_spec (searchTerm : string) (row : Row) :
  matchesSearch numToString searchTerm row = true <-> SearchHit numToString searchTerm row.
Proof.
  unfold matchesSearch, SearchHit. rewrite existsb_exists. split.
  - intros [val [Hin Hinc]]. right. exists val. split; [assumption|].
    now apply includes_spec.
  - intros [-> | [val [Hin Hsub]]].
    + exists (VStr (id row)). split; [apply objectValues_reserved|].
      apply includes_empty.
    + exists val. split; [assumption|]. now apply includes_spec.
Qed.

Lemma matchesTag_spec (activeTag : option string) (col : string) (row : Row) :
  matchesTag numToString activeTag col row = true <-> TagHit numToString activeTag col row.
Proof.
  unfold matchesTag, TagHit, noTagActive. destruct activeTag as [t|].
  - destruct (truthy t) eqn:Tt.
    + apply truthy_true in Tt. rewrite String.eqb_eq. split.
      * intros <-. now right.
      * intros [[E | E] | E]; congruence.
    + apply truthy_false in Tt. subst t. split; auto.
  - split; auto.
Qed.

Lemma filter_all {X : Type} (p : X -> bool) (l : list X) :
  (forall x, In x l -> p x = true) -> filter p l = l.
Proof.
  induction l as [|x l IH]; intros H; simpl; [reflexivity|].
  rewrite (H x (or_introl eq_refl)), IH; [reflexivity|].
  intros y Hy. apply H. now right.
Qed.

Lemma filter_both {X : Type} (p q : X -> bool) (l : list X) :
  filter (fun x => p x && q x) l = filter q (filter p l).
Proof.
  induction l as [|x l IH]; simpl; [reflexivity|].
  destruct (p x); simpl; [destruct (q x)|]; now rewrite IH.
Qed.

End Filter.

(** C6.  A row is in the filtered view exactly when it is a row of the
    collection that matches the search text (the text is empty, or the
    lower-cased string of one of the row's values contains the lower-cased
    text) and matches the tag (no tag is active, or the row's normalized
    group value is the active tag).  The view is the rows that are in both
    the view for the search text alone and the view for the tag alone, in
    the order of the collection, and with an empty text and no tag it is
    the collection itself.  A tag is active when the state holds a non-empty
    string. *)
Theorem filter_conjunction {num : Type} (numToString : num -> string)
        (rows : list (ProductRow num)) (searchTerm : string)
        (activeTag : option string) (classifyCol : string) :
  (forall row,
     In row (filteredData numToString rows searchTerm activeTag classifyCol) <->
     In row rows /\ SearchHit numToString searchTerm row
     /\ TagHit numToString activeTag classifyCol row) /\
  (forall row,
     In row (filteredData numToString rows searchTerm activeTag classifyCol) <->
     In row (filteredData numToString rows searchTerm None classifyCol) /\
     In row (filteredData numToString rows "" activeTag classifyCol)) /\
  filteredData numToString rows searchTerm activeTag classifyCol
    = filter (matchesTag numToString activeTag classifyCol)
             (filter (matchesSearch numToString searchTerm) rows) /\
  filteredData numToString rows "" None classifyCol = rows.
Proof.
  assert (Hmem : forall S T row,
             In row (filteredData numToString rows S T classifyCol) <->
             In row rows /\ SearchHit numToString S row
             /\ TagHit numToString T classifyCol row).
  { intros S T row. unfold filteredData.
    rewrite filter_In, andb_true_iff, matchesSearch_spec, matchesTag_spec. tauto. }
  split; [apply Hmem|]. split; [|split].
  - intros row. rewrite !Hmem. unfold SearchHit, TagHit, noTagActive. tauto.
  - apply filter_both.
  - apply filter_all. intros row _.
    apply andb_true_iff. split; [|reflexivity].
    apply matchesSearch_spec. now left.
Qed.

(** The scenario of the specification. *)
Example filter_examples :
  map id (filteredData Samples.showZ Samples.inventory "Widget" None "Unit") = ["1"; "2"] /\
  map id (filteredData Samples.showZ Samples.inventory "" (Some "case") "Unit") = ["3"] /\
  filteredData Samples.showZ Samples.inventory "Widget" (Some "case") "Unit" = [] /\
  map id (filteredData Samples.showZ Samples.inventory "wIDGET b" None "Unit") = ["2"].
Proof. repeat split. Qed.

(** C10.  For a search text that is not empty, the search tests the string
    of every value of the row, the id and the status text among them: a row
    is in the filtered view exactly when it is a row of the collection, it
    matches the tag, and the lower-cased search text occurs in its
    lower-cased id, in its lower-cased status text or in the lower-cased
    string of the value of one of its other fields.  So a text that occurs in
    the id or in the status text alone makes the row visible, although
    neither "id" nor "processingStatus" is among the headers. *)
Theorem search_reads_reserved_fields {num : Type} (numToString : num -> string)
        (rows : list (ProductRow num)) (row row0 : ProductRow num) (searchTerm : string)
        (activeTag : option string) (classifyCol : string) :
  searchTerm <> "" ->
  (In row (filteredData numToString rows searchTerm activeTag classifyCol) <->
   In row rows /\
   matchesTag numToString activeTag classifyCol row = true /\
   (Substring (toLowerCase searchTerm) (toLowerCase (id row)) \/
    Substring (toLowerCase searchTerm) (toLowerCase (statusText (processingStatus row))) \/
    exists k val, In (k, val) (fields row) /\
                  Substring (toLowerCase searchTerm)
                            (toLowerCase (toStr numToString val)))) /\
  ~ In "id" (headers row0) /\
  ~ In "processingStatus" (headers row0).
Proof.
  intros Hne. split; [|split].
  - unfold filteredData. rewrite filter_In, andb_true_iff, matchesSearch_spec.
    unfold SearchHit, objectValues. split.
    + intros (Hin & [E | (val & Hval & Hsub)] & Htag); [congruence|].
      split; [assumption|]. split; [assumption|].
      apply in_app_or in Hval. destruct Hval as [Hval | [<- | [<- | []]]].
      * apply in_map_iff in Hval. destruct Hval as ([k v] & E & Hkv).
        simpl in E. subst v. right. right. now exists k, val.
      * now left.
      * right. now left.
    + intros (Hin & Htag & Hhit). split; [assumption|]. split; [|assumption].
      right. destruct Hhit as [H | [H | (k & val & Hkv & H)]].
      * exists (VStr (id row)). split; [|exact H].
        apply in_or_app. right. now left.
      * exists (VStr (statusText (processingStatus row))). split; [|exact H].
        apply in_or_app. right. right. now left.
      * exists val. split; [|exact H].
        apply in_or_app. left. apply in_map_iff. now exists (k, val).
  - unfold headers. rewrite filter_In. intros [_ H]. discriminate.
  - unfold headers. rewrite filter_In. intros [_ H]. discriminate.
Qed.

Lemma search_reads_reserved_fields_witness :
  "complete" <> "" /\
  (In (Samples.widget "3" "Gadget" 5 "case" COMPLETED)
      (filteredData Samples.showZ Samples.inventory "complete" None "Unit") <->
   In (Samples.widget "3" "Gadget" 5 "case" COMPLETED) Samples.inventory /\
   matchesTag Samples.showZ None "Unit" (Samples.widget "3" "Gadget" 5 "case" COMPLETED) = true /\
   (Substring (toLowerCase "complete") (toLowerCase "3") \/
    Substring (toLowerCase "complete") (toLowerCase (statusText COMPLETED)) \/
    exists k val, In (k, val) [("Name", VStr "Gadget"); ("Price", VNum 5); ("Unit", VStr "case")] /\
                  Substring (toLowerCase "complete")
                            (toLowerCase (toStr Samples.showZ val)))) /\
  ~ In "id" (headers (Samples.widget "1" "Widget A" 10 "box" INCOMPLETE)) /\
  ~ In "processingStatus" (headers (Samples.widget "1" "Widget A" 10 "box" INCOMPLETE)).
Proof.
  split; [discriminate|].
  apply (search_reads_reserved_fields Samples.showZ Samples.inventory
           (Samples.widget "3" "Gadget" 5 "case" COMPLETED)
           (Samples.widget "1" "Widget A" 10 "box" INCOMPLETE)
           "complete" None "Unit").
  discriminate.
Defined.

(** A text that occurs in no value of any row hides every row, and a text
    that occurs in the status text of one row alone shows that row. *)
Example search_tests_every_value :
  filteredData Samples.showZ Samples.inventory "zzz" None "Unit" = [] /\
  map id (filteredData Samples.showZ Samples.inventory "completed" None "Unit") = ["3"] /\
  map id (filteredData Samples.showZ Samples.inventory "gadget" None "Unit") = ["3"] /\
  map id (filteredData Samples.showZ Samples.inventory "10" None "Unit") = ["1"].
Proof. repeat split. Qed.

(** A text found in no column of the sheet and in every status, and a text
    found in one row's id alone. *)
Example search_reserved_examples :
  map id (filteredData Samples.showZ Samples.inventory "incomplete" None "Unit") = ["1"; "2"] /\
  map id (filteredData Samples.showZ Samples.inventory "3" None "Unit") = ["3"] /\
  headers (Samples.widget "3" "Gadget" 5 "case" COMPLETED) = ["Name"; "Price"; "Unit"].
Proof. repeat split. Qed.

(* ------------------------------------------------------------------ *)
(** ** Status toggle *)

Section Toggle.

Variable num : Type.

Local Abbreviation Row := (ProductRow num).

Lemma toggledStatus_flips (s : ProcessingStatus) :
  toggledStatus s <> s /\ toggledStatus (toggledStatus s) = s.
Proof. destruct s; split; (discriminate || reflexivity). Qed.

Lemma updateRows_nth (rowId : string) (s : ProcessingStatus) (rows : list Row) (j : nat) :
  nth_error (updateRows rowId s rows) j =
  match nth_error rows j with
  | Some row =>
      Some (if String.eqb (id row) rowId then mkRow (id row) s (fields row) else row)
  | None => None
  end.
Proof. unfold updateRows. rewrite nth_error_map. now destruct (nth_error rows j). Qed.

(** An update and the update back give the rows again when the rows with
    that id had the first status. *)
Lemma updateRows_back (rowId : string) (s s' : ProcessingStatus) (rows : list Row) :
  (forall row, In row rows -> id row = rowId -> processingStatus row = s) ->
  updateRows rowId s (updateRows rowId s' rows) = rows.
Proof.
  intros H. unfold updateRows. rewrite map_map.
  rewrite <- (map_id rows) at 2. apply map_ext_in. intros row Hin.
  destruct (String.eqb (id row) rowId) eqn:E; simpl; rewrite E; [|reflexivity].
  apply String.eqb_eq in E. rewrite <- (H row Hin E). now destruct row.
Qed.

Lemma unique_id (rows : list Row) (i j : nat) (row other : Row) :
  NoDup (map id rows) ->
  nth_error rows i = Some row -> nth_error rows j = Some other ->
  id other = id row -> j = i.
Proof.
  intros Hnd Hi Hj E.
  assert (Hlt : (j < List.length (map id rows))%nat).
  { rewrite length_map. apply nth_error_Some. congruence. }
  apply (proj1 (NoDup_nth_error (map id rows)) Hnd j i Hlt).
  rewrite !nth_error_map, Hi, Hj. simpl. now rewrite E.
Qed.

End Toggle.

(** C9.  A click on a row's toggle sets that row's status to the other of
    the two values and a second click sets it back, so that the row is again
    what it was.  Every row with another id is left as it is by both
    updates, every row keeps its id and its other fields, and when the ids
    of the collection are distinct the first update changes no other
    position and the second gives the original collection.  The update is
    the one [handleUpdateStatus] applies to the rows of the active file. *)
Theorem status_toggle_twice {num : Type} (rows : list (ProductRow num)) (i : nat)
        (row : ProductRow num) :
  nth_error rows i = Some row ->
  let rows1 := clickToggle i rows in
  let rows2 := clickToggle i rows1 in
  (toggledStatus (processingStatus row) <> processingStatus row /\
   toggledStatus (toggledStatus (processingStatus row)) = processingStatus row) /\
  nth_error rows1 i
    = Some (mkRow (id row) (toggledStatus (processingStatus row)) (fields row)) /\
  nth_error rows2 i = Some row /\
  (forall j other, nth_error rows j = Some other -> id other <> id row ->
                   nth_error rows1 j = Some other /\ nth_error rows2 j = Some other) /\
  (forall j other, nth_error rows j = Some other ->
     exists o1 o2, nth_error rows1 j = Some o1 /\ nth_error rows2 j = Some o2 /\
                   id o1 = id other /\ fields o1 = fields other /\
                   id o2 = id other /\ fields o2 = fields other) /\
  (NoDup (map id rows) ->
   rows2 = rows /\ forall j, j <> i -> nth_error rows1 j = nth_error rows j) /\
  (forall file, data file = rows -> fileId file <> "" ->
     handleUpdateStatus (Some (fileId file)) [file] (id row)
                        (toggledStatus (processingStatus row))
     = [mkFile (fileId file) (name file) (createdAt file) rows1]).
Proof.
  intros Hi. cbn zeta.
  pose proof (toggledStatus_flips (processingStatus row)) as [Hne Hback].
  assert (H1 : clickToggle i rows
               = updateRows (id row) (toggledStatus (processingStatus row)) rows).
  { unfold clickToggle. now rewrite Hi. }
  assert (Hi1 : nth_error (clickToggle i rows) i
                = Some (mkRow (id row) (toggledStatus (processingStatus row)) (fields row))).
  { rewrite H1, updateRows_nth, Hi. now rewrite String.eqb_refl. }
  assert (H2 : clickToggle i (clickToggle i rows)
               = updateRows (id row) (processingStatus row) (clickToggle i rows)).
  { unfold clickToggle at 1. rewrite Hi1. cbn [id processingStatus]. now rewrite Hback. }
  split; [now split|]. split; [exact Hi1|]. split; [|split; [|split; [|split]]].
  - rewrite H2, updateRows_nth, Hi1. cbn [id fields]. rewrite String.eqb_refl.
    now destruct row.
  - intros j other Hj Hid.
    assert (E : String.eqb (id other) (id row) = false) by now apply String.eqb_neq.
    rewrite H2, updateRows_nth, H1, updateRows_nth, Hj, E. now rewrite E.
  - intros j other Hj.
    rewrite H2, updateRows_nth, H1, updateRows_nth, Hj.
    destruct (String.eqb (id other) (id row)) eqn:E; cbn [id]; rewrite E;
      eexists; eexists; repeat split.
  - intros Hnd.
    assert (Hother : forall j, j <> i -> nth_error (clickToggle i rows) j = nth_error rows j).
    { intros j Hji. rewrite H1, updateRows_nth.
      destruct (nth_error rows j) as [other|] eqn:Hj; [|reflexivity].
      destruct (String.eqb (id other) (id row)) eqn:E; [|reflexivity].
      apply String.eqb_eq in E. exfalso. apply Hji.
      exact (unique_id num rows i j row other Hnd Hi Hj E). }
    split; [|exact Hother].
    rewrite H2, H1. apply updateRows_back. intros other Hin E.
    apply In_nth_error in Hin. destruct Hin as [j Hj].
    assert (j = i) by exact (unique_id num rows i j row other Hnd Hi Hj E).
    subst j. congruence.
  - intros file Hdata Hfile. apply truthy_true in Hfile.
    unfold handleUpdateStatus. rewrite Hfile. cbn [negb map].
    now rewrite String.eqb_refl, Hdata, H1.
Qed.

Lemma status_toggle_twice_witness :
  nth_error Samples.inventory 1 = Some (Samples.widget "2" "Widget B" 0 "box" INCOMPLETE) /\
  nth_error (clickToggle 1 Samples.inventory) 1
    = Some (Samples.widget "2" "Widget B" 0 "box" COMPLETED) /\
  nth_error (clickToggle 1 (clickToggle 1 Samples.inventory)) 1
    = Some (Samples.widget "2" "Widget B" 0 "box" INCOMPLETE).
Proof.
  split; [reflexivity|].
  destruct (status_toggle_twice Samples.inventory 1
              (Samples.widget "2" "Widget B" 0 "box" INCOMPLETE) eq_refl)
    as (_ & H1 & H2 & _).
  split; [exact H1 | exact H2].
Defined.

(** The update of [App.tsx] on the files: without an active file nothing
    changes, and the files other than the active one are kept. *)
Lemma handleUpdateStatus_frame {num : Type} (files : list (FileSession num))
      (active rowId : string) (s : ProcessingStatus) :
  handleUpdateStatus None files rowId s = files /\
  handleUpdateStatus (Some "") files rowId s = files /\
  forall j file, nth_error files j = Some file -> fileId file <> active ->
                 nth_error (handleUpdateStatus (Some active) files rowId s) j = Some file.
Proof.
  repeat split. intros j file Hj Hne. unfold handleUpdateStatus.
  destruct (truthy active); cbn [negb]; [|assumption].
  rewrite nth_error_map, Hj. simpl.
  apply String.eqb_neq in Hne. now rewrite Hne.
Qed.

(* ------------------------------------------------------------------ *)
(** ** Further properties of the grid *)

Section GridFacts.

Variable num : Type.
Variable numToString : num -> string.

Local Abbreviation Row := (ProductRow num).

Lemma scoreOf_firstn (rows : list Row) (h : string) :
  scoreOf (firstn 5 rows) h = scoreOf rows h.
Proof.
  unfold scoreOf, sampleValues.
  rewrite firstn_firstn, Nat.min_id, length_firstn.
  now replace (Nat.min (Nat.min 5 (List.length rows)) 5)
    with (Nat.min (List.length rows) 5) by lia.
Qed.

Lemma detected_ext (hs : list string) (rows rows' : list Row) :
  (forall h, In h hs -> scoreOf rows' h = scoreOf rows h) ->
  detectedNameCol hs rows' = detectedNameCol hs rows.
Proof.
  intros H. unfold detectedNameCol. rewrite !mapM_scoreHeader.
  now rewrite (map_ext_in _ _ hs (fun h Hh => f_equal (mkScored h) (H h Hh))).
Qed.

(** The row an update leaves in place of [row]. *)
Lemma get_updated (row : Row) (s : ProcessingStatus) (k : string) :
  k <> "processingStatus" ->
  get (mkRow (id row) s (fields row)) k = get row k.
Proof.
  intros Hk. unfold get. cbn [id fields processingStatus].
  apply String.eqb_neq in Hk. now rewrite Hk.
Qed.

Lemma get_updateRows (rowId : string) (s : ProcessingStatus) (rows : list Row) (k : string) :
  k <> "processingStatus" ->
  map (fun row => get row k) (updateRows rowId s rows) = map (fun row => get row k) rows.
Proof.
  intros Hk. unfold updateRows. rewrite map_map. apply map_ext. intros row.
  destruct (String.eqb (id row) rowId); [now apply get_updated | reflexivity].
Qed.

Lemma headers_not_reserved (row0 : Row) (h : string) :
  In h (headers row0) -> h <> "id" /\ h <> "processingStatus".
Proof.
  unfold headers. rewrite filter_In, andb_true_iff, !negb_true_iff, !String.eqb_neq.
  tauto.
Qed.

Lemma scoreOf_updateRows (rowId : string) (s : ProcessingStatus) (rows : list Row) (h : string) :
  h <> "processingStatus" ->
  scoreOf (updateRows rowId s rows) h = scoreOf rows h.
Proof.
  intros Hh. unfold scoreOf, sampleValues.
  rewrite <- !firstn_map, (get_updateRows rowId s rows h Hh).
  unfold updateRows. now rewrite length_map.
Qed.

Lemma matchesSearch_empty (row : Row) : matchesSearch numToString "" row = true.
Proof. apply matchesSearch_spec. now left. Qed.

Lemma filter_map_comm {X Y : Type} (g : X -> Y) (p : Y -> bool) (l : list X) :
  filter p (map g l) = map g (filter (fun x => p (g x)) l).
Proof.
  induction l as [|x l IH]; simpl; [reflexivity|].
  destruct (p (g x)); simpl; now rewrite IH.
Qed.

Lemma fold_left_map_comm {X Y Z : Type} (f : Z -> Y -> Z) (g : X -> Y) (l : list X) (z : Z) :
  fold_left f (map g l) z = fold_left (fun z x => f z (g x)) l z.
Proof. revert z. induction l as [|x l IH]; intros z; simpl; [reflexivity | apply IH]. Qed.

Lemma fold_left_ext {X Z : Type} (f f' : Z -> X -> Z) (l : list X) (z : Z) :
  (forall z x, f z x = f' z x) -> fold_left f l z = fold_left f' l z.
Proof.
  intros H. revert z. induction l as [|x l IH]; intros z; simpl; [reflexivity|].
  now rewrite H, IH.
Qed.

End GridFacts.

(** X1.  The inference reads the first five rows and nothing else: it gives
    the same result on the collection and on its first five rows. *)
Theorem inference_reads_five_rows {num : Type} (hs : list string)
        (rows : list (ProductRow num)) :
  detectedNameCol hs rows = detectedNameCol hs (firstn 5 rows).
Proof.
  symmetry. apply detected_ext. intros h _. apply scoreOf_firstn.
Qed.

(** X2.  A status update changes neither the headers of a row nor the
    inferred name column. *)
Theorem status_update_keeps_columns {num : Type} (rowId : string) (s : ProcessingStatus)
        (rows : list (ProductRow num)) (row0 : ProductRow num) :
  map headers (updateRows rowId s rows) = map headers rows /\
  detectedNameCol (headers row0) (updateRows rowId s rows)
    = detectedNameCol (headers row0) rows.
Proof.
  split.
  - unfold updateRows. rewrite map_map. apply map_ext. intros row.
    now destruct (String.eqb (id row) rowId).
  - apply detected_ext. intros h Hh. apply scoreOf_updateRows.
    now apply (headers_not_reserved num row0 h).
Qed.

(** X3.  For a group column other than "processingStatus", a status update
    changes no tag and no count, and with an empty search text the filtered
    view of the updated rows is the updated filtered view: no row enters or
    leaves the view. *)
Theorem status_update_keeps_tags {num : Type} (numToString : num -> string)
        (rowId : string) (s : ProcessingStatus) (rows : list (ProductRow num))
        (activeTag : option string) (classifyCol : string) :
  classifyCol <> "processingStatus" ->
  tags numToString (updateRows rowId s rows) classifyCol = tags numToString rows classifyCol /\
  filteredData numToString (updateRows rowId s rows) "" activeTag classifyCol
    = updateRows rowId s (filteredData numToString rows "" activeTag classifyCol).
Proof.
  intros Hcol.
  assert (Hget : forall row : ProductRow num,
             get (if String.eqb (id row) rowId then mkRow (id row) s (fields row) else row)
                 classifyCol = get row classifyCol).
  { intros row. destruct (String.eqb (id row) rowId); [now apply get_updated | reflexivity]. }
  split.
  - unfold tags. destruct (negb (truthy classifyCol)); [reflexivity|].
    unfold updateRows. rewrite fold_left_map_comm.
    rewrite (fold_left_ext _ (countRow numToString classifyCol)); [reflexivity|].
    intros counts row. unfold countRow. now rewrite Hget.
  - unfold filteredData, updateRows. rewrite filter_map_comm. f_equal.
    apply filter_ext. intros row. rewrite !matchesSearch_empty. cbn [andb].
    unfold matchesTag. now rewrite Hget.
Qed.

Lemma status_update_keeps_tags_witness :
  "Unit" <> "processingStatus" /\
  tags Samples.showZ (updateRows "2" COMPLETED Samples.inventory) "Unit"
    = tags Samples.showZ Samples.inventory "Unit" /\
  filteredData Samples.showZ (updateRows "2" COMPLETED Samples.inventory) "" (Some "box") "Unit"
    = updateRows "2" COMPLETED
        (filteredData Samples.showZ Samples.inventory "" (Some "box") "Unit").
Proof.
  split; [discriminate|].
  apply (status_update_keeps_tags Samples.showZ "2" COMPLETED Samples.inventory
           (Some "box") "Unit").
  discriminate.
Defined.

(** X4.  The group-column effect settles in one run: run again on its own
    result it changes nothing.  On a header list that is not empty its result
    is one of the headers or the empty string. *)
Theorem group_effect_settles (hs : list string) (classifyCol : string) :
  classifyColEffect hs (classifyColEffect hs classifyCol) = classifyColEffect hs classifyCol /\
  (hs <> [] -> In (classifyColEffect hs classifyCol) hs \/ classifyColEffect hs classifyCol = "").
Proof.
  assert (Hcases : In (classifyColEffect hs classifyCol) hs \/
                   (hs <> [] /\ classifyColEffect hs classifyCol = ""
                    /\ find groupRegexTest hs = None) \/
                   hs = []).
  { unfold classifyColEffect.
    destruct (existsb (String.eqb classifyCol) hs) eqn:Inc.
    - left. now apply array_includes.
    - destruct hs as [|h0 hs]; [now right; right|].
      cbn [List.length Nat.ltb Nat.leb].
      destruct (find groupRegexTest (h0 :: hs)) as [candidate|] eqn:F.
      + apply find_some in F. destruct F as [Hin Hmatch].
        rewrite (groupRegexTest_truthy candidate Hmatch). now left.
      + right. left. repeat split. discriminate. }
  set (c := classifyColEffect hs classifyCol) in *.
  destruct Hcases as [Hin | [(Hne & E & F) | ->]].
  - split; [|intros _; now left].
    apply array_includes in Hin. unfold classifyColEffect. now rewrite Hin.
  - split; [|intros _; now right].
    rewrite E. unfold classifyColEffect.
    destruct (existsb (String.eqb "") hs); [reflexivity|].
    destruct hs as [|h0 hs]; [congruence|].
    cbn [List.length Nat.ltb Nat.leb]. now rewrite F.
  - split; [reflexivity | congruence].
Qed.

(* ------------------------------------------------------------------ *)
(** ** Further properties of the tags and of the filter *)

Lemma list_sum_mapSet (k : string) (m : CountMap) :
  list_sum (map snd (mapSet k (orZero (mapGet k m) + 1)%nat m))
  = S (list_sum (map snd m)).
Proof.
  induction m as [|[k0 v0] m IH]; simpl; [reflexivity|].
  destruct (String.eqb k0 k); simpl; [lia | rewrite IH; lia].
Qed.

Lemma list_sum_perm (l l' : list nat) : Permutation l l' -> list_sum l = list_sum l'.
Proof. induction 1; simpl; lia. Qed.

Section TagFacts.

Variable num : Type.
Variable numToString : num -> string.

Local Abbreviation Row := (ProductRow num).

Lemma counts_total (rows : list Row) (col : string) (m : CountMap) :
  list_sum (map snd (fold_left (countRow numToString col) rows m))
  = (list_sum (map snd m)
     + List.length (filter (fun row => truthy (normalizeTag numToString (get row col))) rows))%nat.
Proof.
  revert m. induction rows as [|row rows IH]; intros m; cbn [fold_left filter].
  - simpl. lia.
  - rewrite IH. unfold countRow at 1.
    destruct (truthy (normalizeTag numToString (get row col))); cbn [List.length].
    + rewrite list_sum_mapSet. lia.
    + reflexivity.
Qed.

(** What is among the tags. *)
Lemma tags_member (rows : list Row) (col t : string) (n : nat) :
  In (mkTag t n) (tags numToString rows col) <->
  col <> "" /\ t <> "" /\ n = rowsWithTag numToString rows col t /\ (0 < n)%nat.
Proof.
  unfold tags. destruct (truthy col) eqn:Tc; cbn [negb].
  - apply truthy_true in Tc.
    destruct (counts_invariant num numToString rows col) as [Hnd Hget]. cbn zeta in Hnd, Hget.
    pose proof (sortBy_perm (fun a b : string * nat => Z.of_nat (snd b) - Z.of_nat (snd a))
                  (fold_left (countRow numToString col) rows [])) as Hperm.
    rewrite in_map_iff. split.
    + intros [[t' n'] [E Hin]]. simpl in E. injection E as -> ->.
      split; [assumption|]. apply Hget. apply (mapGet_In t n _ Hnd).
      now apply (Permutation_in _ Hperm).
    + intros [_ H]. apply Hget in H. apply (mapGet_In t n _ Hnd) in H.
      exists (t, n). split; [reflexivity|].
      now apply (Permutation_in _ (Permutation_sym Hperm)).
  - apply truthy_false in Tc. simpl. tauto.
Qed.

Lemma string_app_assoc (a b c : string) : (a ++ b) ++ c = a ++ (b ++ c).
Proof. induction a as [|x a IH]; simpl; [reflexivity | now rewrite IH]. Qed.

Lemma Substring_trans (a b c : string) : Substring a b -> Substring b c -> Substring a c.
Proof.
  intros (p1 & q1 & ->) (p2 & q2 & ->). exists (p2 ++ p1), (q1 ++ q2).
  now rewrite !string_app_assoc.
Qed.

Lemma matchesSearch_narrow (S S' : string) (row : Row) :
  Substring (toLowerCase S) (toLowerCase S') ->
  matchesSearch numToString S' row = true -> matchesSearch numToString S row = true.
Proof.
  intros Hsub. unfold matchesSearch. rewrite !existsb_exists.
  intros (val & Hin & Hinc). exists val. split; [assumption|].
  apply includes_spec. apply includes_spec in Hinc.
  eapply Substring_trans; [exact Hsub | exact Hinc].
Qed.

Lemma filter_refine {X : Type} (p p' : X -> bool) (l : list X) :
  (forall x, p' x = true -> p x = true) ->
  filter p' (filter p l) = filter p' l.
Proof.
  intros H. induction l as [|x l IH]; simpl; [reflexivity|].
  destruct (p x) eqn:Px; simpl.
  - destruct (p' x); now rewrite IH.
  - destruct (p' x) eqn:P'x; [|assumption].
    apply H in P'x. congruence.
Qed.

End TagFacts.

(** X5.  With a group column selected, the counts of the tags add up to the
    number of rows whose normalized group value is not empty; with the rows
    whose normalized group value is empty they account for every row. *)
Theorem tag_counts_total {num : Type} (numToString : num -> string)
        (rows : list (ProductRow num)) (classifyCol : string) :
  classifyCol <> "" ->
  list_sum (map count (tags numToString rows classifyCol))
  = List.length (filter (fun row => truthy (normalizeTag numToString (get row classifyCol))) rows)
  /\
  (list_sum (map count (tags numToString rows classifyCol))
   + List.length
       (filter (fun row => negb (truthy (normalizeTag numToString (get row classifyCol)))) rows)
   = List.length rows)%nat.
Proof.
  intros Hcol. apply truthy_true in Hcol.
  assert (E : list_sum (map count (tags numToString rows classifyCol))
              = List.length (filter (fun row => truthy (normalizeTag numToString (get row classifyCol))) rows)).
  { unfold tags. rewrite Hcol. cbn [negb]. rewrite map_map. cbn [count].
    rewrite (list_sum_perm _ _ (Permutation_map snd (sortBy_perm _ _))).
    now rewrite counts_total. }
  split; [exact E|]. rewrite E. clear E.
  induction rows as [|row rows IH]; simpl; [reflexivity|].
  destruct (truthy (normalizeTag numToString (get row classifyCol))); simpl; lia.
Qed.

Lemma tag_counts_total_witness :
  "Unit" <> "" /\
  list_sum (map count (tags Samples.showZ Samples.blanks "Unit"))
  = List.length
      (filter (fun row => truthy (normalizeTag Samples.showZ (get row "Unit"))) Samples.blanks)
  /\
  (list_sum (map count (tags Samples.showZ Samples.blanks "Unit"))
   + List.length
       (filter (fun row => negb (truthy (normalizeTag Samples.showZ (get row "Unit"))))
               Samples.blanks)
   = List.length Samples.blanks)%nat.
Proof.
  split; [discriminate|].
  apply (tag_counts_total Samples.showZ Samples.blanks "Unit"). discriminate.
Defined.

(** X6.  The count shown on a tag chip is the number of rows of the view
    that a click on the chip gives when the search text is empty, and a
    second click on the chip gives the whole collection again. *)
Theorem chip_count_is_view_size {num : Type} (numToString : num -> string)
        (rows : list (ProductRow num)) (classifyCol t : string) (n : nat) :
  In (mkTag t n) (tags numToString rows classifyCol) ->
  List.length (filteredData numToString rows "" (tagClick None t) classifyCol) = n /\
  filteredData numToString rows "" (tagClick (tagClick None t) t) classifyCol = rows.
Proof.
  intros Hin. apply tags_member in Hin. destruct Hin as (_ & Ht & -> & _).
  apply truthy_true in Ht. split.
  - unfold filteredData, rowsWithTag, tagClick. f_equal. apply filter_ext. intros row.
    rewrite matchesSearch_empty. cbn [andb]. unfold matchesTag. now rewrite Ht.
  - cbn [tagClick]. rewrite String.eqb_refl.
    unfold filteredData. apply filter_all. intros row _.
    now rewrite matchesSearch_empty.
Qed.

Lemma chip_count_is_view_size_witness :
  In (mkTag "box" 2) (tags Samples.showZ Samples.inventory "Unit") /\
  List.length (filteredData Samples.showZ Samples.inventory "" (tagClick None "box") "Unit")
    = 2%nat /\
  filteredData Samples.showZ Samples.inventory "" (tagClick (tagClick None "box") "box") "Unit"
    = Samples.inventory.
Proof.
  assert (Hin : In (mkTag "box" 2) (tags Samples.showZ Samples.inventory "Unit"))
    by (left; reflexivity).
  split; [exact Hin|].
  exact (chip_count_is_view_size Samples.showZ Samples.inventory "Unit" "box" 2 Hin).
Defined.

(** X7.  A search text whose lower-cased form occurs in the lower-cased
    form of another never shows fewer rows than the other: when lower-cased
    [S] occurs in lower-cased [S'], every row of the view for [S'] is in the
    view for [S], and filtering the view for [S] by [S'] gives the view for
    [S']. *)
Theorem search_narrows {num : Type} (numToString : num -> string)
        (rows : list (ProductRow num)) (S S' : string)
        (activeTag : option string) (classifyCol : string) :
  Substring (toLowerCase S) (toLowerCase S') ->
  filteredData numToString (filteredData numToString rows S activeTag classifyCol)
               S' activeTag classifyCol
    = filteredData numToString rows S' activeTag classifyCol /\
  (forall row, In row (filteredData numToString rows S' activeTag classifyCol) ->
               In row (filteredData numToString rows S activeTag classifyCol)) /\
  (List.length (filteredData numToString rows S' activeTag classifyCol)
   <= List.length (filteredData numToString rows S activeTag classifyCol))%nat.
Proof.
  intros Hsub.
  assert (E : filteredData numToString (filteredData numToString rows S activeTag classifyCol)
                           S' activeTag classifyCol
              = filteredData numToString rows S' activeTag classifyCol).
  { unfold filteredData. apply filter_refine. intros row.
    rewrite !andb_true_iff. intros [Hs Ht]. split; [|assumption].
    now apply (matchesSearch_narrow num numToString S S'). }
  split; [exact E|]. split.
  - intros row Hin. rewrite <- E in Hin. unfold filteredData at 1 in Hin.
    now apply filter_In in Hin.
  - rewrite <- E. unfold filteredData at 1. apply filter_length_le.
Qed.

Lemma search_narrows_witness :
  Substring (toLowerCase "Widget") (toLowerCase "Widget B") /\
  filteredData Samples.showZ (filteredData Samples.showZ Samples.inventory "Widget" None "Unit")
               "Widget B" None "Unit"
    = filteredData Samples.showZ Samples.inventory "Widget B" None "Unit".
Proof.
  assert (Hsub : Substring (toLowerCase "Widget") (toLowerCase "Widget B"))
    by (exists "", " b"; reflexivity).
  split; [exact Hsub|].
  exact (proj1 (search_narrows Samples.showZ Samples.inventory "Widget" "Widget B"
                  None "Unit" Hsub)).
Defined.

(* ------------------------------------------------------------------ *)
(** ** Row expansion *)

Lemma flagGet_flagSet (k k' : string) (v : bool) (m : ExpandedRows) :
  flagGet k' (flagSet k v m) = if String.eqb k k' then Some v else flagGet k' m.
Proof.
  induction m as [|[k0 v0] m IH]; simpl.
  - reflexivity.
  - destruct (String.eqb k0 k) eqn:E0; simpl.
    + apply String.eqb_eq in E0. subst k0. now destruct (String.eqb k k').
    + rewrite IH. destruct (String.eqb k0 k') eqn:E1; [|reflexivity].
      apply String.eqb_eq in E1. subst k0. now rewrite String.eqb_sym, E0.
Qed.

(** X8.  Every row starts collapsed.  A click on a row flips whether that
    row is expanded and leaves every other row as it was, and two clicks on
    a row leave every row as it was. *)
Theorem expand_toggle (rowId : string) (expandedRows : ExpandedRows) :
  (forall other, isExpanded [] other = false) /\
  isExpanded (toggleExpand rowId expandedRows) rowId = negb (isExpanded expandedRows rowId) /\
  (forall other, other <> rowId ->
     isExpanded (toggleExpand rowId expandedRows) other = isExpanded expandedRows other) /\
  (forall other,
     isExpanded (toggleExpand rowId (toggleExpand rowId expandedRows)) other
     = isExpanded expandedRows other).
Proof.
  assert (H : forall m other,
             isExpanded (toggleExpand rowId m) other
             = if String.eqb rowId other then negb (isExpanded m rowId) else isExpanded m other).
  { intros m other. unfold isExpanded, toggleExpand. rewrite flagGet_flagSet.
    now destruct (String.eqb rowId other). }
  split; [reflexivity|]. split; [|split].
  - now rewrite H, String.eqb_refl.
  - intros other Hne. rewrite H.
    assert (E : String.eqb rowId other = false) by (apply String.eqb_neq; congruence).
    now rewrite E.
  - intros other. rewrite !H, String.eqb_refl.
    destruct (String.eqb rowId other) eqn:E; [|reflexivity].
    apply String.eqb_eq in E. subst other. apply negb_involutive.
Qed.

(* ------------------------------------------------------------------ *)
(** ** The files of App.tsx *)

Section AppFacts.

Variable num : Type.

Local Abbreviation Row := (ProductRow num).
Local Abbreviation File := (FileSession num).

Lemma countStatus_app (s : ProcessingStatus) (l1 l2 : list Row) :
  countStatus s (l1 ++ l2) = (countStatus s l1 + countStatus s l2)%nat.
Proof. unfold countStatus. now rewrite filter_app, length_app. Qed.

Lemma countStatus_sum (rows : list Row) :
  (countStatus INCOMPLETE rows + countStatus COMPLETED rows = List.length rows)%nat.
Proof.
  unfold countStatus. induction rows as [|row rows IH]; simpl; [reflexivity|].
  destruct (processingStatus row); simpl; lia.
Qed.

(** With distinct ids an update rewrites one position. *)
Lemma updateRows_split (l1 l2 : list Row) (row : Row) (s : ProcessingStatus) :
  NoDup (map id (l1 ++ row :: l2)) ->
  updateRows (id row) s (l1 ++ row :: l2) = (l1 ++ mkRow (id row) s (fields row) :: l2)%list.
Proof.
  intros Hnd. rewrite map_app in Hnd. cbn [map] in Hnd.
  apply NoDup_remove_2 in Hnd.
  assert (Hkeep : forall l : list Row, (forall r, In r l -> id r <> id row) ->
                            updateRows (id row) s l = l).
  { intros l Hl. unfold updateRows. rewrite <- (map_id l) at 2.
    apply map_ext_in. intros r Hr.
    apply Hl, String.eqb_neq in Hr. now rewrite Hr. }
  unfold updateRows in *. rewrite map_app. cbn [map]. rewrite String.eqb_refl.
  rewrite (Hkeep l1), (Hkeep l2); [reflexivity| |].
  - intros r Hr E. apply Hnd. apply in_or_app. right. rewrite <- E. now apply in_map.
  - intros r Hr E. apply Hnd. apply in_or_app. left. rewrite <- E. now apply in_map.
Qed.

Lemma find_filter_other (files : list File) (a target : string) :
  a <> target ->
  find (fun f => String.eqb (fileId f) a)
       (filter (fun f => negb (String.eqb (fileId f) target)) files)
  = find (fun f => String.eqb (fileId f) a) files.
Proof.
  intros Hne. induction files as [|f files IH]; simpl; [reflexivity|].
  destruct (String.eqb (fileId f) target) eqn:Et; simpl.
  - destruct (String.eqb (fileId f) a) eqn:Ea; [|assumption].
    apply String.eqb_eq in Et, Ea. congruence.
  - now rewrite IH.
Qed.

Lemma find_map_keep {X : Type} (p : X -> bool) (g : X -> X) (l : list X) :
  (forall x, p (g x) = p x) ->
  find p (map g l) = option_map g (find p l).
Proof.
  intros H. induction l as [|x l IH]; simpl; [reflexivity|].
  rewrite H. now destruct (p x).
Qed.

End AppFacts.

(** X9.  The two status counts of the stats row add up to the total.  When
    the ids of the rows are distinct, a click on a row's toggle keeps the
    total, raises the count of the row's new status by one and lowers the
    count of its old status by one. *)
Theorem toggle_moves_one_count {num : Type} (rows : list (ProductRow num)) (i : nat)
        (row : ProductRow num) :
  NoDup (map id rows) ->
  nth_error rows i = Some row ->
  (countStatus INCOMPLETE rows + countStatus COMPLETED rows = List.length rows)%nat /\
  List.length (clickToggle i rows) = List.length rows /\
  countStatus (toggledStatus (processingStatus row)) (clickToggle i rows)
    = S (countStatus (toggledStatus (processingStatus row)) rows) /\
  S (countStatus (processingStatus row) (clickToggle i rows))
    = countStatus (processingStatus row) rows.
Proof.
  intros Hnd Hi. split; [apply countStatus_sum|].
  unfold clickToggle. rewrite Hi.
  destruct (nth_error_split rows i Hi) as (l1 & l2 & -> & _).
  rewrite (updateRows_split num l1 l2 row _ Hnd).
  rewrite !length_app, !countStatus_app. cbn [List.length].
  change (row :: l2) with ([row] ++ l2)%list.
  change (mkRow (id row) (toggledStatus (processingStatus row)) (fields row) :: l2)
    with ([mkRow (id row) (toggledStatus (processingStatus row)) (fields row)] ++ l2)%list.
  rewrite !countStatus_app. unfold countStatus at 2 5 8 11. cbn [filter processingStatus].
  destruct (processingStatus row); cbn; repeat split; lia.
Qed.

Lemma toggle_moves_one_count_witness :
  (NoDup (map id Samples.inventory) /\
   nth_error Samples.inventory 1 = Some (Samples.widget "2" "Widget B" 0 "box" INCOMPLETE)) /\
  countStatus COMPLETED (clickToggle 1 Samples.inventory)
    = S (countStatus COMPLETED Samples.inventory) /\
  S (countStatus INCOMPLETE (clickToggle 1 Samples.inventory))
    = countStatus INCOMPLETE Samples.inventory.
Proof.
  assert (Hnd : NoDup (map id Samples.inventory)).
  { simpl. repeat constructor; simpl; intuition discriminate. }
  split; [split; [exact Hnd | reflexivity]|].
  destruct (toggle_moves_one_count Samples.inventory 1
              (Samples.widget "2" "Widget B" 0 "box" INCOMPLETE) Hnd eq_refl)
    as (_ & _ & H1 & H2).
  split; [exact H1 | exact H2].
Defined.

(** X10.  A confirmed delete removes the files with the given id and keeps
    the others in their order.  Afterwards no file is active when the deleted
    id was the active one, and otherwise the active file is the one it was.
    A delete that is not confirmed changes nothing. *)
Theorem delete_file_effect {num : Type} (target : string)
        (files : list (FileSession num)) (activeFileId : option string) :
  (forall f, In f (fst (handleDeleteFile true target files activeFileId)) <->
             In f files /\ fileId f <> target) /\
  (forall post pre f g,
     fst (handleDeleteFile true target files activeFileId) = (pre ++ f :: g :: post)%list ->
     exists a b c, files = (a ++ f :: b ++ g :: c)%list) /\
  activeFile (fst (handleDeleteFile true target files activeFileId))
             (snd (handleDeleteFile true target files activeFileId))
  = match activeFileId with
    | Some a => if String.eqb a target then None else activeFile files activeFileId
    | None => None
    end /\
  handleDeleteFile false target files activeFileId = (files, activeFileId).
Proof.
  cbn [handleDeleteFile fst snd]. split; [|split; [|split]].
  - intros f. rewrite filter_In, negb_true_iff, String.eqb_neq. tauto.
  - induction files as [|x files IH]; intros post pre f g E.
    + destruct pre; discriminate.
    + cbn [filter] in E. destruct (negb (String.eqb (fileId x) target)).
      * destruct pre as [|y pre]; cbn in E; injection E as -> E.
        -- clear IH. exists [].
           assert (Hg : In g (filter (fun f0 => negb (String.eqb (fileId f0) target)) files))
             by (rewrite E; now left).
           apply filter_In in Hg. destruct Hg as [Hg _].
           apply in_split in Hg. destruct Hg as (b & c & ->). now exists b, c.
        -- destruct (IH post pre f g E) as (a & b & c & ->).
           now exists (y :: a), b, c.
      * destruct (IH post pre f g E) as (a & b & c & ->).
        now exists (x :: a), b, c.
  - destruct activeFileId as [a|]; [|reflexivity].
    destruct (String.eqb a target) eqn:E; [reflexivity|].
    apply String.eqb_neq in E. cbn [activeFile]. now apply find_filter_other.
  - reflexivity.
Qed.

(** X11.  When no file has the id of the new session, a successful upload
    appends the new session to the files, which are otherwise unchanged, and
    makes it the active file.  A failed upload changes neither the files nor
    the active file. *)
Theorem upload_shows_new_file {num : Type} (rows : list (ProductRow num))
        (fileName : string) (now1 now2 : N)
        (files : list (FileSession num)) (activeFileId : option string) :
  (forall f, In f files -> fileId f <> "file-" ++ showN now1) ->
  fst (handleFileSelect (Some rows) fileName now1 now2 files activeFileId)
    = (files ++ [mkFile ("file-" ++ showN now1) fileName (Z.of_N now2) rows])%list /\
  activeFile (fst (handleFileSelect (Some rows) fileName now1 now2 files activeFileId))
             (snd (handleFileSelect (Some rows) fileName now1 now2 files activeFileId))
    = Some (mkFile ("file-" ++ showN now1) fileName (Z.of_N now2) rows) /\
  handleFileSelect None fileName now1 now2 files activeFileId = (files, activeFileId).
Proof.
  intros Hfresh. cbn [handleFileSelect fst snd fileId activeFile].
  split; [reflexivity|]. split; [|reflexivity].
  apply find_first.
  - apply Forall_forall. intros f Hf. apply String.eqb_neq. now apply Hfresh.
  - apply String.eqb_refl.
Qed.

Lemma upload_shows_new_file_witness :
  (forall f, In f Sheets.stored -> fileId f <> "file-" ++ showN 1700000000000) /\
  activeFile
    (fst (handleFileSelect (Some Samples.inventory) "c.xlsx" 1700000000000 1700000000001
                           Sheets.stored (Some "file-1")))
    (snd (handleFileSelect (Some Samples.inventory) "c.xlsx" 1700000000000 1700000000001
                           Sheets.stored (Some "file-1")))
  = Some (mkFile ("file-" ++ showN 1700000000000) "c.xlsx" (Z.of_N 1700000000001)
                 Samples.inventory).
Proof.
  assert (Hfresh : forall f, In f Sheets.stored -> fileId f <> "file-" ++ showN 1700000000000).
  { simpl. intros f [<- | [<- | []]]; vm_compute; discriminate. }
  split; [exact Hfresh|].
  exact (proj1 (proj2 (upload_shows_new_file Samples.inventory "c.xlsx" 1700000000000
                         1700000000001 Sheets.stored (Some "file-1") Hfresh))).
Defined.

(** X12.  A status update keeps the files in their order with their ids,
    names and dates, changes no row of a file other than the active one, and
    the active file afterwards is the former active file with its rows
    updated. *)
Theorem status_update_on_files {num : Type} (active : string)
        (files : list (FileSession num)) (rowId : string) (s : ProcessingStatus) :
  active <> "" ->
  map (fun f => (fileId f, name f, createdAt f))
      (handleUpdateStatus (Some active) files rowId s)
    = map (fun f => (fileId f, name f, createdAt f)) files /\
  (forall j f, nth_error files j = Some f -> fileId f <> active ->
               nth_error (handleUpdateStatus (Some active) files rowId s) j = Some f) /\
  activeFile (handleUpdateStatus (Some active) files rowId s) (Some active)
    = option_map (fun f => mkFile (fileId f) (name f) (createdAt f)
                                  (updateRows rowId s (data f)))
                 (activeFile files (Some active)).
Proof.
  intros Hact. apply truthy_true in Hact.
  unfold handleUpdateStatus. rewrite Hact. cbn [negb]. split; [|split].
  - rewrite map_map. apply map_ext. intros f.
    now destruct (String.eqb (fileId f) active).
  - intros j f Hj Hne. rewrite nth_error_map, Hj. simpl.
    apply String.eqb_neq in Hne. now rewrite Hne.
  - cbn [activeFile].
    rewrite (find_map_keep (fun f => String.eqb (fileId f) active)).
    + destruct (find (fun f => String.eqb (fileId f) active) files) as [f|] eqn:F;
        [|reflexivity].
      apply find_some in F. destruct F as [_ E]. cbn [option_map]. now rewrite E.
    + intros f. now destruct (String.eqb (fileId f) active) eqn:E.
Qed.

Lemma status_update_on_files_witness :
  "file-2" <> "" /\
  activeFile (handleUpdateStatus (Some "file-2") Sheets.stored "5" COMPLETED) (Some "file-2")
  = option_map (fun f => mkFile (fileId f) (name f) (createdAt f)
                                (updateRows "5" COMPLETED (data f)))
               (activeFile Sheets.stored (Some "file-2")).
Proof.
  split; [discriminate|].
  apply (status_update_on_files "file-2" Sheets.stored "5" COMPLETED). discriminate.
Defined.

(* ------------------------------------------------------------------ *)
(** ** Decoded rows *)

Lemma allDigits_uint (d : Decimal.uint) : allDigits (NilEmpty.string_of_uint d) = true.
Proof. induction d; simpl; auto. Qed.

Lemma string_of_uint_inj (d d' : Decimal.uint) :
  NilEmpty.string_of_uint d = NilEmpty.string_of_uint d' -> d = d'.
Proof.
  intros E. apply (f_equal NilEmpty.uint_of_string) in E.
  rewrite !NilEmpty.usu in E. congruence.
Qed.

(** Two numerals followed by a dash and a rest: equal strings have equal
    numerals and equal rests. *)
Lemma dash_split (a a' b b' : string) :
  allDigits a = true -> allDigits a' = true ->
  a ++ String "-" b = a' ++ String "-" b' -> a = a' /\ b = b'.
Proof.
  revert a'. induction a as [|c a IH]; intros [|c' a'] Ha Ha' E; simpl in *.
  - injection E as ->. now split.
  - injection E as <- _. apply andb_true_iff in Ha'. destruct Ha' as [D _]. discriminate.
  - injection E as -> _. apply andb_true_iff in Ha. destruct Ha as [D _]. discriminate.
  - injection E as -> E.
    apply andb_true_iff in Ha, Ha'. destruct Ha as [_ Ha]. destruct Ha' as [_ Ha'].
    destruct (IH a' Ha Ha' E) as [-> ->]. now split.
Qed.

Lemma numerals_inj (t t' : N) (i j : nat) :
  showN t ++ String "-" (showNat i) = showN t' ++ String "-" (showNat j) ->
  t = t' /\ i = j.
Proof.
  intros E. apply dash_split in E; try apply allDigits_uint.
  destruct E as [Et Ei]. split.
  - now apply DecimalN.Unsigned.to_uint_inj, string_of_uint_inj.
  - now apply DecimalNat.Unsigned.to_uint_inj, string_of_uint_inj.
Qed.

Lemma rowId_inj (t t' : N) (i j : nat) :
  "row-" ++ showN t ++ "-" ++ showNat i = "row-" ++ showN t' ++ "-" ++ showNat j ->
  t = t' /\ i = j.
Proof.
  intros E. cbn [append] in E. injection E as E. now apply numerals_inj.
Qed.

Lemma mapIndexed_nth {A B : Type} (f : A -> nat -> B) (l : list A) (start i : nat) :
  nth_error (mapIndexed f start l) i
  = option_map (fun a => f a (start + i)%nat) (nth_error l i).
Proof.
  revert start i. induction l as [|a l IH]; intros start [|i]; simpl; try reflexivity.
  - now rewrite Nat.add_0_r.
  - rewrite IH. now replace (S start + i)%nat with (start + S i)%nat by lia.
Qed.

Lemma mapIndexed_length {A B : Type} (f : A -> nat -> B) (l : list A) (start : nat) :
  List.length (mapIndexed f start l) = List.length l.
Proof. revert start. induction l as [|a l IH]; intros start; simpl; [reflexivity | now rewrite IH]. Qed.

Lemma mapIndexed_map {A B C : Type} (f : A -> nat -> B) (g : B -> C) (h : A -> C)
      (l : list A) (start : nat) :
  (forall a i, g (f a i) = h a) -> map g (mapIndexed f start l) = map h l.
Proof.
  intros H. revert start. induction l as [|a l IH]; intros start; simpl; [reflexivity|].
  now rewrite H, IH.
Qed.

Section Decoding.

Variable num : Type.

Lemma lookup_unreserved (k : string) (r : list (string * Value num)) :
  isReserved k = false ->
  lookup k (filter (fun kv => negb (isReserved (fst kv))) r) = lookup k r.
Proof.
  intros Hk. induction r as [|[k0 v0] r IH]; simpl; [reflexivity|].
  destruct (isReserved k0) eqn:R; simpl.
  - destruct (String.eqb k0 k) eqn:E; [|assumption].
    apply String.eqb_eq in E. congruence.
  - now rewrite IH.
Qed.

Lemma keys_unreserved (r : list (string * Value num)) :
  map fst (filter (fun kv => negb (isReserved (fst kv))) r)
  = filter (fun k => negb (isReserved k)) (map fst r).
Proof.
  induction r as [|[k0 v0] r IH]; simpl; [reflexivity|].
  destruct (isReserved k0); simpl; now rewrite IH.
Qed.

Lemma headers_toProductRow (now : N) (index : nat) (r : list (string * Value num)) :
  headers (toProductRow now index r) = filter (fun k => negb (isReserved k)) (map fst r).
Proof.
  unfold headers, objectKeys, toProductRow. cbn [fields].
  rewrite filter_app, keys_unreserved. cbn. rewrite app_nil_r.
  apply filter_all. intros k Hk. apply filter_In in Hk. destruct Hk as [_ Hk].
  unfold isReserved in Hk. now rewrite negb_orb in Hk.
Qed.

Lemma none_completed (rows : list (ProductRow num)) :
  (forall row, In row rows -> processingStatus row = INCOMPLETE) ->
  countStatus COMPLETED rows = 0%nat.
Proof.
  unfold countStatus. induction rows as [|row rows IH]; intros H; [reflexivity|].
  cbn [filter]. rewrite (H row (or_introl eq_refl)). cbn [status_eqb].
  apply IH. intros r Hr. apply H. now right.
Qed.

End Decoding.

(** X13.  The decoder gives one row for each record of the sheet, in the
    same order.  Every row starts "Incomplete", the ids of the rows are
    pairwise distinct, the headers of a row are the sheet's column names
    other than "id" and "processingStatus" in their order, and under each of
    these names the row holds the value the sheet has. *)
Theorem decoded_rows_fresh {num : Type} (clock : nat -> N)
        (jsonData : list (list (string * Value num))) :
  List.length (processRows clock jsonData) = List.length jsonData /\
  (forall row, In row (processRows clock jsonData) -> processingStatus row = INCOMPLETE) /\
  countStatus COMPLETED (processRows clock jsonData) = 0%nat /\
  NoDup (map id (processRows clock jsonData)) /\
  (forall i r, nth_error jsonData i = Some r ->
     exists row,
       nth_error (processRows clock jsonData) i = Some row /\
       id row = "row-" ++ showN (clock i) ++ "-" ++ showNat i /\
       headers row = filter (fun k => negb (isReserved k)) (map fst r) /\
       (forall k, isReserved k = false -> get row k = lookup k r)).
Proof.
  assert (Hnth : forall i, nth_error (processRows clock jsonData) i
                           = option_map (toProductRow (clock i) i) (nth_error jsonData i)).
  { intros i. unfold processRows. now rewrite mapIndexed_nth. }
  assert (Hst : forall row, In row (processRows clock jsonData) ->
                            processingStatus row = INCOMPLETE).
  { intros row Hin. apply In_nth_error in Hin. destruct Hin as [i Hi].
    rewrite Hnth in Hi. destruct (nth_error jsonData i); [|discriminate].
    injection Hi as <-. reflexivity. }
  split; [apply mapIndexed_length|]. split; [exact Hst|]. split; [|split].
  - now apply none_completed.
  - apply (proj2 (NoDup_nth_error _)). intros i j Hi E.
    rewrite !nth_error_map, !Hnth in E. rewrite length_map in Hi.
    apply nth_error_Some in Hi. rewrite Hnth in Hi.
    destruct (nth_error jsonData i) as [r|]; [|now elim Hi].
    destruct (nth_error jsonData j) as [r'|]; [|discriminate].
    cbn [option_map toProductRow id] in E. injection E as E.
    now apply numerals_inj in E.
  - intros i r Hi. exists (toProductRow (clock i) i r). rewrite Hnth, Hi.
    split; [reflexivity|]. split; [reflexivity|]. split.
    + apply headers_toProductRow.
    + intros k Hk. unfold get, toProductRow. cbn [fields].
      unfold isReserved in Hk. apply orb_false_iff in Hk. destruct Hk as [K1 K2].
      rewrite K1, K2. apply lookup_unreserved.
      unfold isReserved. now rewrite K1, K2.
Qed.

(** The decoding of the sample sheet. *)
Example decoded_rows_example :
  processRows Sheets.clock Sheets.sheet
  = [mkRow "row-1700000000000-0" INCOMPLETE [("Name", VStr "Widget A"); ("Unit", VStr "box")];
     mkRow "row-1700000000001-1" INCOMPLETE [("Name", VStr "Gadget"); ("Unit", VStr "case")]].
Proof. reflexivity. Qed.

(** X14.  The sample sent for analysis from freshly decoded rows is the
    first 50 records of the sheet at most, each without its "id" and
    "processingStatus" columns; for a sheet without such columns it is the
    first 50 records as they were decoded. *)
Theorem analysis_sample_of_decoded {num : Type} (clock : nat -> N)
        (jsonData : list (list (string * Value num))) :
  sampleData (processRows clock jsonData)
    = firstn 50 (map (filter (fun kv => negb (isReserved (fst kv)))) jsonData) /\
  (List.length (sampleData (processRows clock jsonData)) <= 50)%nat /\
  ((forall r k, In r jsonData -> In k (map fst r) -> isReserved k = false) ->
   sampleData (processRows clock jsonData) = firstn 50 jsonData).
Proof.
  assert (E : sampleData (processRows clock jsonData)
              = firstn 50 (map (filter (fun kv => negb (isReserved (fst kv)))) jsonData)).
  { unfold sampleData, processRows. rewrite <- firstn_map. f_equal.
    now apply mapIndexed_map. }
  split; [exact E|]. split.
  - rewrite E. apply firstn_le_length.
  - intros Hclean. rewrite E. f_equal. rewrite <- (map_id jsonData) at 2.
    apply map_ext_in. intros r Hr. apply filter_all. intros [k v] Hkv.
    cbn [fst]. rewrite (Hclean r k Hr); [reflexivity|].
    now apply (in_map fst) in Hkv.
Qed.

(* ------------------------------------------------------------------ *)
(** ** The download name *)

Lemma splitOn_cons (sep : ascii -> bool) (s : string) :
  exists piece rest, splitOn sep s = piece :: rest.
Proof.
  induction s as [|c s IH]; simpl; [now exists "", []|].
  destruct (sep c); [now eexists; eexists|].
  destruct IH as (piece & rest & ->). now eexists; eexists.
Qed.

(** The pieces of a split keep what holds of every character. *)
Lemma splitOn_pieces (sep q : ascii -> bool) (s : string) :
  allChars q s = true ->
  Forall (fun piece => allChars q piece = true) (splitOn sep s).
Proof.
  induction s as [|c s IH]; simpl; intros H.
  - now constructor.
  - apply andb_true_iff in H. destruct H as [Hc Hs]. specialize (IH Hs).
    destruct (sep c); [now constructor|].
    destruct (splitOn sep s) as [|piece rest]; constructor; simpl;
      try (inversion IH; subst); auto.
    + now rewrite Hc.
    + now rewrite Hc.
Qed.

(** No piece of a split holds a separator. *)
Lemma splitOn_no_sep (sep : ascii -> bool) (s : string) :
  Forall (fun piece => allChars (fun c => negb (sep c)) piece = true) (splitOn sep s).
Proof.
  induction s as [|c s IH]; simpl.
  - now constructor.
  - destruct (sep c) eqn:E; [now constructor|].
    destruct (splitOn sep s) as [|piece rest]; constructor; simpl;
      try (inversion IH; subst); auto.
    + now rewrite E.
    + now rewrite E.
Qed.

Lemma last_in {X : Type} (l : list X) (d : X) : l <> [] -> In (last l d) l.
Proof.
  induction l as [|x l IH]; [congruence|]. intros _.
  destruct l as [|y l]; [now left|]. right. apply IH. discriminate.
Qed.

Lemma allChars_and (p q : ascii -> bool) (s : string) :
  allChars p s = true -> allChars q s = true ->
  allChars (fun c => p c && q c) s = true.
Proof.
  induction s as [|c s IH]; simpl; [reflexivity|].
  rewrite !andb_true_iff. intros [Hp Hps] [Hq Hqs]. repeat split; auto.
Qed.

Lemma allChars_app (p : ascii -> bool) (a b : string) :
  allChars p (a ++ b) = allChars p a && allChars p b.
Proof. induction a as [|c a IH]; simpl; [reflexivity | now rewrite IH, andb_assoc]. Qed.

Lemma splitOn_plain (sep : ascii -> bool) (e : string) :
  allChars (fun x => negb (sep x)) e = true -> splitOn sep e = [e].
Proof.
  induction e as [|x e IH]; [reflexivity|]. simpl. intros He.
  apply andb_true_iff in He. destruct He as [Hx He].
  apply negb_true_iff in Hx. now rewrite Hx, (IH He).
Qed.

Lemma splitOn_app_sep (sep : ascii -> bool) (pre e : string) (c : ascii) :
  sep c = true ->
  splitOn sep (pre ++ String c e) = (splitOn sep pre ++ splitOn sep e)%list.
Proof.
  intros Hc. induction pre as [|x pre IH]; simpl.
  - now rewrite Hc.
  - rewrite IH. destruct (sep x); [reflexivity|].
    destruct (splitOn_cons sep pre) as (piece & rest & ->). reflexivity.
Qed.

Lemma last_app_nonempty {X : Type} (l1 l2 : list X) (d : X) :
  l2 <> [] -> last (l1 ++ l2) d = last l2 d.
Proof.
  intros Hne. induction l1 as [|x l1 IH]; [reflexivity|].
  cbn [app]. destruct (l1 ++ l2)%list eqn:E; [|exact IH].
  apply app_eq_nil in E. destruct E. congruence.
Qed.

(** The last piece of a split at [c], when nothing behind [c] is a
    separator. *)
Lemma splitOn_last (sep : ascii -> bool) (pre e : string) (c : ascii) :
  sep c = true -> allChars (fun x => negb (sep x)) e = true ->
  last (splitOn sep (pre ++ String c e)) "" = e.
Proof.
  intros Hc He. rewrite (splitOn_app_sep sep pre e c Hc), (splitOn_plain sep e He).
  now rewrite last_app_nonempty.
Qed.

(** The first piece of a split, when a separator or nothing follows it. *)
Lemma splitOn_first (sep : ascii -> bool) (e rest : string) :
  allChars (fun x => negb (sep x)) e = true ->
  allChars sep (substring 0 1 rest) = true ->
  hd "" (splitOn sep (e ++ rest)) = e.
Proof.
  intros He Hrest. induction e as [|x e IH]; simpl.
  - destruct rest as [|c rest]; [reflexivity|]. simpl in *.
    destruct rest; simpl in Hrest; rewrite andb_true_r in Hrest; now rewrite Hrest.
  - simpl in He. apply andb_true_iff in He. destruct He as [Hx He].
    apply negb_true_iff in Hx. rewrite Hx. specialize (IH He).
    destruct (splitOn_cons sep (e ++ rest)) as (piece & r & E). rewrite E in *.
    simpl in *. now subst.
Qed.

(** X15.  The name of a download is the product name with every character
    other than a letter or a digit replaced by an underscore, a dot and an
    extension.  The extension is never empty and holds no dot, question mark
    or hash sign. *)
Theorem download_name_shape (productName url : string) :
  downloadName productName url = sanitizeName productName ++ "." ++ fileExtension url /\
  String.length (sanitizeName productName) = String.length productName /\
  allChars (fun c => isAlnum c || Ascii.eqb c "_") (sanitizeName productName) = true /\
  sanitizeName (sanitizeName productName) = sanitizeName productName /\
  fileExtension url <> "" /\
  allChars (fun c => negb (isDot c) && negb (isQueryOrHash c)) (fileExtension url) = true.
Proof.
  split; [reflexivity|]. split; [|split; [|split; [|split]]].
  - induction productName as [|c s IH]; simpl; [reflexivity | now rewrite IH].
  - induction productName as [|c s IH]; simpl; [reflexivity|]. rewrite IH, andb_true_r.
    destruct (isAlnum c) eqn:E; [now rewrite E | reflexivity].
  - induction productName as [|c s IH]; simpl; [reflexivity|]. rewrite IH. f_equal.
    destruct (isAlnum c) eqn:E; [now rewrite E | reflexivity].
  - unfold fileExtension.
    destruct (truthy (hd "" _)) eqn:T; [now apply truthy_true | discriminate].
  - unfold fileExtension.
    set (tail := last (splitOn isDot url) "").
    assert (Htail : allChars (fun c => negb (isDot c)) tail = true).
    { pose proof (splitOn_no_sep isDot url) as H. rewrite Forall_forall in H.
      apply H. apply last_in. destruct (splitOn_cons isDot url) as (p & r & ->). discriminate. }
    destruct (splitOn_cons isQueryOrHash tail) as (piece & rest & E).
    rewrite E. cbn [hd].
    destruct (truthy piece); [|reflexivity].
    pose proof (splitOn_no_sep isQueryOrHash tail) as H1.
    pose proof (splitOn_pieces isQueryOrHash _ tail Htail) as H2.
    rewrite E in H1, H2. inversion H1; subst. inversion H2; subst.
    now apply allChars_and.
Qed.

(** X16.  For a URL that ends in a dot and an extension without a dot,
    question mark or hash sign, followed at most by a query or a fragment
    without a dot, the extension of the download is that extension. *)
Theorem file_extension_of_url (pre e query : string) :
  e <> "" ->
  allChars (fun c => negb (isDot c) && negb (isQueryOrHash c)) e = true ->
  allChars (fun c => negb (isDot c)) query = true ->
  allChars isQueryOrHash (substring 0 1 query) = true ->
  fileExtension (pre ++ "." ++ e ++ query) = e.
Proof.
  intros Hne He Hq Hfirst. unfold fileExtension.
  assert (He1 : allChars (fun c => negb (isDot c)) e = true /\
                allChars (fun c => negb (isQueryOrHash c)) e = true).
  { clear -He. induction e as [|c e IH]; simpl in *; [now split|].
    rewrite !andb_true_iff in *. tauto. }
  destruct He1 as [Hdot Hqh].
  change (pre ++ "." ++ e ++ query) with (pre ++ String "." (e ++ query)).
  rewrite (splitOn_last isDot pre (e ++ query) "."); [|reflexivity|].
  - rewrite (splitOn_first isQueryOrHash e query Hqh Hfirst).
    apply truthy_true in Hne. now rewrite Hne.
  - now rewrite allChars_app, Hdot, Hq.
Qed.

Lemma file_extension_of_url_witness :
  ("png" <> "" /\
   allChars (fun c => negb (isDot c) && negb (isQueryOrHash c)) "png" = true /\
   allChars (fun c => negb (isDot c)) "?w=200#top" = true /\
   allChars isQueryOrHash (substring 0 1 "?w=200#top") = true) /\
  fileExtension ("https://cdn.example.com/img/bolt" ++ "." ++ "png" ++ "?w=200#top") = "png".
Proof.
  split; [repeat split; discriminate|].
  apply (file_extension_of_url "https://cdn.example.com/img/bolt" "png" "?w=200#top");
    (discriminate || reflexivity).
Defined.

(** Names of downloads: a URL without an extension of its own gives what
    follows its last dot, and a URL that ends in a dot gives "jpg". *)
Example download_name_examples :
  downloadName "Hex bolt M8/20" "https://x.com/a.b/img.JPG#top" = "Hex_bolt_M8_20.JPG" /\
  fileExtension "http://example.com/image" = "com/image" /\
  fileExtension "https://x.com/img." = "jpg" /\
  fileExtension "" = "jpg".
Proof. repeat split. Qed.

(* ------------------------------------------------------------------ *)
(** ** The clean-up of the image search response *)

Lemma dropPrefix_length (pat s rest : string) :
  dropPrefix pat s = Some rest ->
  String.length s = (String.length pat + String.length rest)%nat.
Proof.
  revert s. induction pat as [|b pat IH]; intros s E; simpl in *.
  - now injection E as ->.
  - destruct s as [|a s]; [discriminate|].
    destruct (Ascii.eqb a b); [|discriminate].
    simpl. now rewrite (IH s E).
Qed.

(** The fuel [removeAll] starts with is enough: more fuel gives the same. *)
Lemma removeAllFuel_enough (pat : string) (n fuel : nat) (s : string) :
  pat <> "" -> (fuel <= n)%nat -> (String.length s <= fuel)%nat ->
  removeAllFuel pat fuel s = removeAll pat s.
Proof.
  intros Hpat. unfold removeAll. revert fuel s.
  induction n as [|n IH]; intros fuel s Hn Hlen.
  - assert (fuel = 0%nat) by lia. subst fuel.
    destruct s; [reflexivity | simpl in Hlen; lia].
  - destruct fuel as [|fuel]; [destruct s; [reflexivity | simpl in Hlen; lia]|].
    destruct s as [|c s]; [reflexivity|].
    cbn [removeAllFuel String.length]. simpl in Hlen.
    destruct (dropPrefix pat (String c s)) as [rest|] eqn:D.
    + apply dropPrefix_length in D. simpl in D.
      assert (0 < String.length pat)%nat by (destruct pat; [congruence | simpl; lia]).
      rewrite (IH fuel rest), (IH (String.length s) rest); (reflexivity || lia).
    + f_equal. apply IH; lia.
Qed.

(** How [removeAll] goes over a string that is not empty. *)
Lemma removeAll_step (pat : string) (c : ascii) (s : string) :
  pat <> "" ->
  removeAll pat (String c s) =
  match dropPrefix pat (String c s) with
  | Some rest => removeAll pat rest
  | None => String c (removeAll pat s)
  end.
Proof.
  intros Hpat. unfold removeAll at 1. cbn [String.length removeAllFuel].
  destruct (dropPrefix pat (String c s)) as [rest|] eqn:D.
  - apply dropPrefix_length in D. simpl in D.
    assert (0 < String.length pat)%nat by (destruct pat; [congruence | simpl; lia]).
    apply (removeAllFuel_enough pat (String.length s)); (assumption || lia).
  - f_equal.
Qed.

Lemma removeAll_empty (pat : string) : removeAll pat "" = "".
Proof. reflexivity. Qed.

(** A string without the first character of the pattern is left as it is. *)
Lemma removeAll_absent (b : ascii) (pat s : string) :
  allChars (fun c => negb (Ascii.eqb c b)) s = true ->
  removeAll (String b pat) s = s.
Proof.
  induction s as [|c s IH]; intros H; [reflexivity|].
  simpl in H. apply andb_true_iff in H. destruct H as [Hc Hs].
  apply negb_true_iff in Hc.
  rewrite removeAll_step by discriminate. cbn [dropPrefix]. rewrite Hc.
  now rewrite (IH Hs).
Qed.

(** The four shapes of a string, seen from a fence. *)
Lemma fence_cases (s : string) :
  s = "" \/
  (exists c s', s = String c s' /\ Ascii.eqb c "`" = false) \/
  (exists s', s = String "`" s' /\ startsWith s' "``" = false) \/
  (exists rest, s = "```" ++ rest).
Proof.
  destruct s as [|c s]; [now left|]. right.
  destruct (Ascii.eqb c "`") eqn:E; [|left; now exists c, s].
  apply Ascii.eqb_eq in E. subst c. right.
  destruct (startsWith s "``") eqn:P; [|left; now exists s].
  right. apply startsWith_spec in P. destruct P as [rest ->]. now exists rest.
Qed.

Lemma fence_other (c : ascii) (s : string) :
  Ascii.eqb c "`" = false ->
  removeAll "```" (String c s) = String c (removeAll "```" s).
Proof.
  intros E. rewrite removeAll_step by discriminate. cbn [dropPrefix]. now rewrite E.
Qed.

Lemma fence_short (s : string) :
  startsWith s "``" = false ->
  removeAll "```" (String "`" s) = String "`" (removeAll "```" s).
Proof.
  intros P. rewrite removeAll_step by discriminate.
  destruct s as [|a s]; [reflexivity|]. cbn [dropPrefix startsWith] in *.
  rewrite Ascii.eqb_refl.
  destruct (Ascii.eqb a "`"); [|reflexivity].
  destruct s as [|b s]; [reflexivity|]. cbn [andb] in P.
  rewrite andb_true_r in P. now rewrite P.
Qed.

Lemma fence_removed (rest : string) :
  removeAll "```" ("```" ++ rest) = removeAll "```" rest.
Proof.
  cbn [append]. rewrite removeAll_step by discriminate.
  cbn [dropPrefix]. now rewrite Ascii.eqb_refl.
Qed.

Lemma fence_lead1 (s : string) :
  startsWith s "`" = false -> startsWith (removeAll "```" s) "`" = false.
Proof.
  intros P. destruct (fence_cases s) as [-> | [(c & s' & -> & E) | [(s' & -> & _) | (rest & ->)]]];
    try discriminate; [reflexivity|].
  rewrite (fence_other c s' E). cbn [startsWith]. now rewrite E.
Qed.

Lemma fence_lead2 (s : string) :
  startsWith s "``" = false -> startsWith (removeAll "```" s) "``" = false.
Proof.
  intros P. destruct (fence_cases s) as [-> | [(c & s' & -> & E) | [(s' & -> & Q) | (rest & ->)]]];
    try discriminate; [reflexivity| |].
  - rewrite (fence_other c s' E). cbn [startsWith]. now rewrite E.
  - rewrite (fence_short s' Q). cbn [startsWith] in *. rewrite Ascii.eqb_refl in *.
    cbn [andb] in *. now apply fence_lead1.
Qed.

Lemma fence_lead3 (s : string) :
  startsWith s "```" = false -> startsWith (removeAll "```" s) "```" = false.
Proof.
  intros P. destruct (fence_cases s) as [-> | [(c & s' & -> & E) | [(s' & -> & Q) | (rest & ->)]]];
    try discriminate; [reflexivity| |].
  - rewrite (fence_other c s' E). cbn [startsWith]. now rewrite E.
  - rewrite (fence_short s' Q). cbn [startsWith]. rewrite Ascii.eqb_refl.
    cbn [andb]. now apply fence_lead2.
Qed.

(** One pass over the fences leaves none. *)
Lemma no_fence_left (s : string) : includes (removeAll "```" s) "```" = false.
Proof.
  remember (String.length s) as n eqn:Hn. revert s Hn.
  induction n as [n IH] using lt_wf_ind. intros s Hn.
  destruct (fence_cases s) as [-> | [(c & s' & -> & E) | [(s' & -> & Q) | (rest & ->)]]].
  - reflexivity.
  - rewrite (fence_other c s' E). cbn [includes].
    rewrite (IH (String.length s')) by (subst; simpl; lia || reflexivity).
    cbn [startsWith]. now rewrite E.
  - pose proof (fence_lead3 (String "`" s')) as L.
    rewrite (fence_short s' Q) in *. cbn [includes].
    rewrite (IH (String.length s')) by (subst; simpl; lia || reflexivity).
    rewrite L; [reflexivity|]. cbn [startsWith]. now rewrite Ascii.eqb_refl.
  - rewrite fence_removed. apply (IH (String.length rest)); [|reflexivity].
    subst. simpl. lia.
Qed.

Lemma trimStart_suffix (s : string) : exists pre, s = pre ++ trimStart s.
Proof.
  induction s as [|c s IH]; simpl; [now exists ""|].
  destruct (isWhiteSpace c); [|now exists ""].
  destruct IH as [pre E]. exists (String c pre). simpl. now rewrite <- E.
Qed.

Lemma trimEnd_prefix (s : string) : exists post, s = trimEnd s ++ post.
Proof.
  induction s as [|c s IH]; simpl; [now exists ""|].
  destruct IH as [post E].
  destruct (trimEnd s) as [|a t] eqn:T.
  - destruct (isWhiteSpace c); [now exists (String c s) | now exists s].
  - exists post. simpl. now rewrite E at 1.
Qed.

Lemma trim_substring (s : string) : Substring (trim s) s.
Proof.
  unfold trim. destruct (trimStart_suffix s) as [pre E].
  destruct (trimEnd_prefix (trimStart s)) as [post E'].
  exists pre, post. now rewrite <- E', <- E.
Qed.

(** X17.  The cleaned response of the image search holds no code fence:
    three backticks in a row do not occur in it.  A response without any
    backtick is only trimmed, and a missing or empty response is cleaned to
    the text of an empty array. *)
Theorem clean_text_has_no_fence (responseText : option string) :
  includes (cleanText responseText) "```" = false /\
  (forall text, text <> "" ->
                allChars (fun c => negb (Ascii.eqb c "`")) text = true ->
                cleanText (Some text) = trim text) /\
  cleanText None = "[]" /\
  cleanText (Some "") = "[]".
Proof.
  split; [|split; [|split; reflexivity]].
  - unfold cleanText.
    destruct (includes (trim _) "```") eqn:I; [|reflexivity].
    apply includes_spec in I.
    pose proof (Substring_trans _ _ _ I (trim_substring _)) as H.
    apply includes_spec in H. now rewrite no_fence_left in H.
  - intros text Hne Hplain. unfold cleanText. apply truthy_true in Hne. rewrite Hne.
    change "```json" with (String "`" "``json"). change "```" with (String "`" "``").
    now rewrite (removeAll_absent "`" "``json" text Hplain),
                (removeAll_absent "`" "``" text Hplain).
Qed.

(** A fenced answer, and a fence that the first replacement puts together. *)
Example clean_text_examples :
  cleanText (Some "```json [1] ```") = "[1]" /\
  removeAll "```json" "`````json`x" = "```x" /\
  cleanText (Some "`````json`x") = "x" /\
  removeAll "```" "````a``````b``" = "`ab``".
Proof. repeat split. Qed.

(* ------------------------------------------------------------------ *)
(** ** The range of the scores *)

Lemma nameRule_range (lowerH : string) (z : Z) : z <= nameRule lowerH z <= z + 100.
Proof.
  unfold nameRule.
  repeat match goal with |- context [if ?b then _ else _] => destruct b end; lia.
Qed.

Lemma penaltyRule_range (lowerH : string) (z : Z) : z - 150 <= penaltyRule lowerH z <= z.
Proof.
  unfold penaltyRule.
  repeat match goal with |- context [if ?b then _ else _] => destruct b end; lia.
Qed.

(** X18.  Every score lies between -350 and 180. *)
Theorem score_range {num : Type} (rows : list (ProductRow num)) (h : string) :
  exists z, scoreHeader rows h = Some (mkScored h z) /\ -350 <= z <= 180.
Proof.
  exists (scoreOf rows h). split; [apply scoreHeader_total|].
  rewrite scoreOf_split.
  destruct (shapeScore_bounds num (sampleValues rows h)) as (Hs & _).
  unfold headerBase.
  pose proof (nameRule_range (toLowerCase h) 0) as Hn.
  pose proof (penaltyRule_range (toLowerCase h) (nameRule (toLowerCase h) 0)) as Hp.
  lia.
Qed.

(** Both ends of the range are reached. *)
Example score_range_reached :
  scoreHeader Sheets.extremes "Price ID" = Some (mkScored "Price ID" (-350)) /\
  scoreHeader Sheets.extremes "Classification Data"
    = Some (mkScored "Classification Data" 180).
Proof. repeat split. Qed.

(* ------------------------------------------------------------------ *)
(** ** The name column and the details panel *)

Lemma detailHeaders_split (l1 l2 : list string) (n : string) :
  NoDup (l1 ++ n :: l2) -> detailHeaders (l1 ++ n :: l2) n = (l1 ++ l2)%list.
Proof.
  intros Hnd. apply NoDup_remove_2 in Hnd.
  unfold detailHeaders. rewrite filter_app. cbn [filter].
  rewrite String.eqb_refl. cbn [negb]. f_equal; apply filter_all; intros h Hh;
    apply negb_true_iff, String.eqb_neq; intros ->; apply Hnd, in_or_app; auto.
Qed.

(** X19.  With distinct headers, at least one of them, and a user choice
    that is empty or one of the headers, the name column is one of the
    headers: the user's choice when there is one and the inferred column
    otherwise.  The details panel lists every other header once, in the
    order of the headers. *)
Theorem name_and_details {num : Type} (userSelectedNameCol : string) (hs : list string)
        (rows : list (ProductRow num)) :
  hs <> [] ->
  NoDup hs ->
  userSelectedNameCol = "" \/ In userSelectedNameCol hs ->
  exists n,
    nameColumn userSelectedNameCol hs rows = Some n /\
    In n hs /\
    (userSelectedNameCol <> "" -> n = userSelectedNameCol) /\
    (userSelectedNameCol = "" -> detectedNameCol hs rows = Some n) /\
    ~ In n (detailHeaders hs n) /\
    exists l1 l2, hs = (l1 ++ n :: l2)%list /\ detailHeaders hs n = (l1 ++ l2)%list.
Proof.
  intros Hne Hnd Huser.
  destruct (detected_first_max num rows hs Hne) as (pre & d & post & E & Hd & _).
  assert (Hdin : In d hs) by (rewrite E; apply in_or_app; right; now left).
  unfold nameColumn. rewrite Hd. cbn [bind].
  set (n := if truthy userSelectedNameCol then userSelectedNameCol else d).
  assert (Hn : In n hs).
  { subst n. destruct (truthy userSelectedNameCol) eqn:T; [|assumption].
    destruct Huser as [-> | H]; [discriminate | assumption]. }
  exists n. split; [reflexivity|]. split; [exact Hn|]. split; [|split; [|split]].
  - intros H. apply truthy_true in H. subst n. now rewrite H.
  - intros ->. reflexivity.
  - unfold detailHeaders. rewrite filter_In, negb_true_iff, String.eqb_neq. tauto.
  - apply in_split in Hn. destruct Hn as (l1 & l2 & El). exists l1, l2.
    split; [exact El|]. rewrite El in *. now apply detailHeaders_split.
Qed.

Lemma name_and_details_witness :
  (["Name"; "Price"; "Unit"] <> [] /\ NoDup ["Name"; "Price"; "Unit"] /\
   ("Unit" = "" \/ In "Unit" ["Name"; "Price"; "Unit"])) /\
  exists n,
    nameColumn "Unit" ["Name"; "Price"; "Unit"] Samples.inventory = Some n /\
    In n ["Name"; "Price"; "Unit"] /\
    ("Unit" <> "" -> n = "Unit") /\
    ("Unit" = "" -> detectedNameCol ["Name"; "Price"; "Unit"] Samples.inventory = Some n) /\
    ~ In n (detailHeaders ["Name"; "Price"; "Unit"] n) /\
    exists l1 l2, ["Name"; "Price"; "Unit"] = (l1 ++ n :: l2)%list /\
                  detailHeaders ["Name"; "Price"; "Unit"] n = (l1 ++ l2)%list.
Proof.
  assert (Hnd : NoDup ["Name"; "Price"; "Unit"]).
  { repeat constructor; simpl; intuition discriminate. }
  assert (Hin : "Unit" = "" \/ In "Unit" ["Name"; "Price"; "Unit"]) by (right; simpl; auto).
  split; [repeat split; [discriminate | exact Hnd | exact Hin]|].
  apply (name_and_details "Unit" ["Name"; "Price"; "Unit"] Samples.inventory);
    [discriminate | exact Hnd | exact Hin].
Defined.

(** The name column of the sample sheet without and with a user choice. *)
Example name_column_examples :
  nameColumn "" ["Name"; "Price"; "Unit"] Samples.inventory = Some "Name" /\
  detailHeaders ["Name"; "Price"; "Unit"] "Name" = ["Price"; "Unit"] /\
  nameColumn "Unit" ["Name"; "Price"; "Unit"] Samples.inventory = Some "Unit" /\
  detailHeaders ["Name"; "Price"; "Unit"] "Unit" = ["Name"; "Price"].
Proof. repeat split. Qed.
